(** * Multi-network blockchain gateway: [src/services/blockchainService.js]

    A shallow embedding of the [BlockchainService] class and the proofs of
    its specification.

    Modelling conventions.
    - JavaScript strings are [string]s of ASCII code units; [toLowerCase]
      maps the letters [A]..[Z] and leaves every other code unit alone.
    - A [networkName] argument is [undefined], [null] or a string.
    - An object literal used as a lookup table is a [gmap] of its own
      properties; reading a property falls back to [Object.prototype].
    - The body of a method runs in the monad [M]: it reads the service
      object, advances a virtual clock and appends to the trace of upstream
      calls, and it returns, throws, or never resumes.
    - The ethers library and the JSON-RPC nodes are outside the repository:
      the nodes are a parameter ([upstream]), and so is the key check of
      [new ethers.Wallet]. *)

From Stdlib Require Import ZArith NArith String Ascii List Lia Bool.
From stdpp Require Import base gmap strings list.

Local Open Scope string_scope.

(* ------------------------------------------------------------------ *)
(** ** JavaScript strings *)

Module Js.

Definition is_upper (c : ascii) : bool :=
  let n := nat_of_ascii c in (65 <=? n)%nat && (n <=? 90)%nat.

Definition lower_char (c : ascii) : ascii :=
  if is_upper c then ascii_of_nat (nat_of_ascii c + 32) else c.

(** [String.prototype.toLowerCase] *)
Fixpoint toLowerCase (s : string) : string :=
  match s with
  | EmptyString => EmptyString
  | String c r => String (lower_char c) (toLowerCase r)
  end.

(** The three shapes a [networkName] argument takes. *)
Inductive arg : Type :=
| Undefined
| Null
| Str (s : string).

(** A default parameter [x = d] replaces [undefined] only. *)
Definition default_param (a : arg) (d : string) : arg :=
  match a with
  | Undefined => Str d
  | _ => a
  end.

(** [a || d] for a string [d]: [undefined], [null] and [''] are falsy. *)
Definition or_else (a : arg) (d : string) : string :=
  match a with
  | Str s => if String.eqb s "" then d else s
  | _ => d
  end.

(** [`${a}`] *)
Definition template (a : arg) : string :=
  match a with
  | Undefined => "undefined"
  | Null => "null"
  | Str s => s
  end.

(** Errors thrown by the service or by the runtime. *)
Inductive error : Type :=
| Error (message : string)
| TypeError (message : string).

Definition message (e : error) : string :=
  match e with
  | Error m => m
  | TypeError m => m
  end.

(** [a.toLowerCase()]: a [TypeError] on [null] and [undefined]. *)
Definition call_toLowerCase (a : arg) : error + string :=
  match a with
  | Str s => inr (toLowerCase s)
  | Null => inl (TypeError "Cannot read properties of null (reading 'toLowerCase')")
  | Undefined => inl (TypeError "Cannot read properties of undefined (reading 'toLowerCase')")
  end.

(** The property names every object literal inherits from
    [Object.prototype]. *)
Definition Object_prototype : list string :=
  [ "constructor"; "__defineGetter__"; "__defineSetter__"; "hasOwnProperty";
    "__lookupGetter__"; "__lookupSetter__"; "isPrototypeOf";
    "propertyIsEnumerable"; "toString"; "valueOf"; "__proto__";
    "toLocaleString" ].

(** What [o[k]] yields on an object literal [o] whose own properties all
    hold values of type [A]: an own value, or a member of
    [Object.prototype]. Both are truthy; [None] is [undefined]. *)
Inductive slot (A : Type) : Type :=
| Own (a : A)
| Inherited (key : string).
Arguments Own {A} a.
Arguments Inherited {A} key.

Definition get {A} (o : gmap string A) (k : string) : option (slot A) :=
  match o !! k with
  | Some a => Some (Own a)
  | None => if bool_decide (k ∈ Object_prototype) then Some (Inherited k) else None
  end.

(** [process.env.X || d] *)
Definition env_or (v : option string) (d : string) : string :=
  match v with
  | Some s => if String.eqb s "" then d else s
  | None => d
  end.

End Js.

Import Js.

(* ------------------------------------------------------------------ *)
(** ** Data *)

Record NetworkProfile := {
  name : string;
  rpcUrl : string;
  blockExplorer : string
}.

(** [new ethers.JsonRpcProvider(url)]: a fresh object ([oid] tells two
    objects with one URL apart). *)
Record JsonRpcProvider := {
  oid : nat;
  endpoint : string
}.

Record BlockchainService := {
  networks : gmap string NetworkProfile;
  providers : gmap string JsonRpcProvider;
  defaultNetwork : string
}.

Section Constructor.

(** [process.env] *)
Variable env : string -> option string.

Definition ethereum_profile : NetworkProfile :=
  {| name := "Ethereum Mainnet";
     rpcUrl := env_or (env "ETHEREUM_RPC_URL")
                 "https://mainnet.infura.io/v3/YOUR_INFURA_PROJECT_ID";
     blockExplorer := "https://etherscan.io" |}.

Definition polygon_profile : NetworkProfile :=
  {| name := "Polygon Mainnet";
     rpcUrl := env_or (env "POLYGON_RPC_URL") "https://polygon-rpc.com";
     blockExplorer := "https://polygonscan.com" |}.

Definition polygonMumbai_profile : NetworkProfile :=
  {| name := "Polygon Mumbai";
     rpcUrl := env_or (env "POLYGON_TESTNET_RPC_URL")
                 "https://rpc-mumbai.maticvigil.com";
     blockExplorer := "https://mumbai.polygonscan.com" |}.

Definition ethereum_provider : JsonRpcProvider :=
  {| oid := 0; endpoint := rpcUrl ethereum_profile |}.
Definition polygon_provider : JsonRpcProvider :=
  {| oid := 1; endpoint := rpcUrl polygon_profile |}.
Definition polygonMumbai_provider : JsonRpcProvider :=
  {| oid := 2; endpoint := rpcUrl polygonMumbai_profile |}.

Definition constructor : BlockchainService :=
  {| networks :=
       <["ethereum" := ethereum_profile]>
       (<["polygon" := polygon_profile]>
       (<["polygonMumbai" := polygonMumbai_profile]> ∅));
     providers :=
       <["ethereum" := ethereum_provider]>
       (<["polygon" := polygon_provider]>
       (<["polygonMumbai" := polygonMumbai_provider]> ∅));
     defaultNetwork := "polygon" |}.

End Constructor.

(* ------------------------------------------------------------------ *)
(** ** The upstream boundary *)

Module Ethers.

(** Caller-supplied transaction descriptor, handed to the node as it is. *)
Record TransactionRequest := {
  to : string;
  value : Z;
  data : string
}.

(** [provider.getFeeData()]: each fee is a bigint or [null]. *)
Record FeeData := {
  gasPrice : option Z;
  maxFeePerGas : option Z;
  maxPriorityFeePerGas : option Z
}.

Record TransactionReceipt := {
  blockNumber : Z;
  succeeded : bool
}.

End Ethers.

Abbreviation TransactionRequest := Ethers.TransactionRequest.
Abbreviation FeeData := Ethers.FeeData.
Abbreviation TransactionReceipt := Ethers.TransactionReceipt.

(** The remote operations of a connection, indexed by what they resolve
    to. [SendTransaction] is [wallet.sendTransaction(tx)] for a wallet made
    from the given key, [Wait] is [txResponse.wait()]. *)
Inductive rpc : Type -> Type :=
| GetBlockNumber : rpc Z
| GetBalance (address : string) : rpc Z
| GetTransaction (txHash : string) : rpc (option TransactionRequest)
| EstimateGas (tx : TransactionRequest) : rpc Z
| GetFeeData : rpc FeeData
| SendTransaction (privateKey : string) (tx : TransactionRequest) : rpc string
| Wait (txHash : string) : rpc TransactionReceipt.

(** How a remote call ends: it fulfils, it rejects, or it never settles. *)
Inductive settlement (A : Type) : Type :=
| Fulfils (a : A)
| Rejects (e : error)
| NeverSettles.
Arguments Fulfils {A} a.
Arguments Rejects {A} e.
Arguments NeverSettles {A}.

(** What a node answers to a call, and how long it takes. *)
Record reply (A : Type) := {
  latency : nat;
  settles : settlement A
}.
Arguments latency {A} r.
Arguments settles {A} r.

Definition node : Type := JsonRpcProvider -> forall A, rpc A -> reply A.

Inductive call : Type :=
| Call (p : JsonRpcProvider) {A : Type} (r : rpc A).

(** The trace: a call leaves the process, or the method resumes after the
    calls it was suspended on have settled. *)
Inductive event : Type :=
| Issued (c : call)
| Resumed (cs : list call).

Record promise (A : Type) := {
  due : nat;
  outcome : settlement A;
  sources : list call
}.
Arguments due {A} p.
Arguments outcome {A} p.
Arguments sources {A} p.

(* ------------------------------------------------------------------ *)
(** ** The monad of method bodies *)

Record heap := {
  this : BlockchainService;
  now : nat;
  trace : list event
}.

Inductive result (A : Type) : Type :=
| Ok (a : A)
| Throw (e : error)
| Hang.
Arguments Ok {A} a.
Arguments Throw {A} e.
Arguments Hang {A}.

Definition M (A : Type) : Type := heap -> result A * heap.

Definition ret {A} (a : A) : M A := fun h => (Ok a, h).

Definition throw {A} (e : error) : M A := fun h => (Throw e, h).

Definition bind {A B} (m : M A) (k : A -> M B) : M B :=
  fun h =>
    match m h with
    | (Ok a, h') => k a h'
    | (Throw e, h') => (Throw e, h')
    | (Hang, h') => (Hang, h')
    end.

Notation "x <- m ;; k" := (bind m (fun x => k))
  (at level 100, m at next level, right associativity).

(** [try { m } catch (error) { handler }] *)
Definition try_catch {A} (m : M A) (handler : error -> M A) : M A :=
  fun h =>
    match m h with
    | (Throw e, h') => handler e h'
    | r => r
    end.

Definition get_this : M BlockchainService := fun h => (Ok (this h), h).

(** Lifting a synchronous step that may throw. *)
Definition lift {A} (r : error + A) : M A :=
  match r with
  | inl e => throw e
  | inr a => ret a
  end.

(* ------------------------------------------------------------------ *)
(** ** Amounts: bigint printing and [ethers.formatEther] *)

Module BigInt.

Definition digit (n : N) : ascii := ascii_of_N (48 + n).

(** Decimal digits of [n], most significant first, pushed onto [acc]. *)
Fixpoint digits (fuel : nat) (n : N) (acc : list ascii) : list ascii :=
  match fuel with
  | O => acc
  | S fuel' =>
      let acc' := digit (n mod 10) :: acc in
      if (n <? 10)%N then acc' else digits fuel' (n / 10) acc'
  end.

Definition of_N (n : N) : list ascii :=
  digits (S (N.to_nat (N.log2 n))) n [].

(** [BigInt.prototype.toString()] *)
Definition toString (z : Z) : string :=
  if (z <? 0)%Z
  then String "-" (string_of_list_ascii (of_N (Z.abs_N z)))
  else string_of_list_ascii (of_N (Z.abs_N z)).

End BigInt.

Module Units.

Definition zero : ascii := "0"%char.
Definition point : ascii := "."%char.

(** [while (str.length <= decimals) str = zeros + str]: the library pads in
    blocks of zeros and [trim] takes the surplus off again, so one zero per
    missing digit gives the same string. *)
Fixpoint pad (k : nat) (str : list ascii) : list ascii :=
  match k with
  | O => str
  | S k' => zero :: pad k' str
  end.

(** [while (str[0] === "0" && str[1] !== ".") str = str.substring(1)] *)
Fixpoint trim (str : list ascii) : list ascii :=
  match str with
  | [] => []
  | c :: rest =>
      if Ascii.eqb c zero
      then match rest with
           | d :: _ => if Ascii.eqb d point then str else trim rest
           | [] => trim rest
           end
      else str
  end.

(** [ethers.formatUnits(value, decimals)]: sign, whole part, point, fraction;
    the whole part keeps one digit at least, and so does the fraction. The
    second loop of the library trims from the right end what [trim] trims
    from the left. *)
Definition formatUnits (v : Z) (decimals : nat) : string :=
  let negative := if (v <? 0)%Z then "-" else "" in
  let str := BigInt.of_N (Z.abs_N v) in
  if (decimals =? 0)%nat then negative ++ string_of_list_ascii str
  else
    let str := pad (S decimals - length str) str in
    let index := (length str - decimals)%nat in
    let str := (firstn index str ++ point :: skipn index str)%list in
    let str := trim str in
    let str := rev (trim (rev str)) in
    negative ++ string_of_list_ascii str.

(** [ethers.formatEther(wei)] *)
Definition formatEther (wei : Z) : string := formatUnits wei 18.

End Units.

(* ------------------------------------------------------------------ *)
(** ** What the methods return *)

(** [feeData.x?.toString() || null] *)
Definition toString_or_null (x : option Z) : option string :=
  match x with
  | Some z => let s := BigInt.toString z in if String.eqb s "" then None else Some s
  | None => None
  end.

(** Reading [.name] off [this.networks[key]]; [None] is [undefined]. A
    member of [Object.prototype] is a function with its own name, or the
    prototype object itself. *)
Definition read_name (network : slot NetworkProfile) : option string :=
  match network with
  | Own n => Some (name n)
  | Inherited k =>
      if String.eqb k "__proto__" then None
      else if String.eqb k "constructor" then Some "Object"
      else Some k
  end.

(** Reading a profile field that no member of [Object.prototype] has. *)
Definition read_field (f : NetworkProfile -> string) (network : slot NetworkProfile)
    : option string :=
  match network with
  | Own n => Some (f n)
  | Inherited _ => None
  end.

Definition cannot_read (what field : string) : error :=
  TypeError ("Cannot read properties of " ++ what ++ " (reading '" ++ field ++ "')").

Module Status.
Record t := {
  status : string;
  network : slot NetworkProfile;
  latestBlock : option Z;
  error : option string
}.
End Status.

Module Block.
Record t := {
  network : option (slot NetworkProfile);
  blockNumber : Z
}.
End Block.

Module Balance.
Record t := {
  address : string;
  network : option string;
  balanceWei : string;
  balanceEth : string
}.
End Balance.

Module GasCost.
Record t := {
  gas : string;
  maxFeePerGas : option string;
  maxPriorityFeePerGas : option string
}.
End GasCost.

Module Info.
Record fees := {
  gasPrice : option string;
  maxFeePerGas : option string;
  maxPriorityFeePerGas : option string
}.
Record t := {
  name : option string;
  rpcUrl : option string;
  blockExplorer : option string;
  blockNumber : Z;
  feeData : fees
}.
End Info.

(** [new ethers.Wallet(privateKey, provider)] *)
Record Wallet := {
  signingKey : string;
  provider : slot JsonRpcProvider
}.

(** [new ethers.Contract(contractAddress, abi, provider)]: the runner is the
    connection alone, no signer. *)
Record Contract := {
  target : string;
  interface : string;
  runner : slot JsonRpcProvider
}.

(** What [sendTransaction] returns: the hash and the confirmation wait, a
    computation of its own that runs only when the caller runs it. *)
Record Handle := {
  hash : string;
  wait : M TransactionReceipt
}.

Section Gateway.

Variable upstream : node.

(** [new ethers.Wallet(privateKey, provider)] throws on malformed key
    material; [None] means the key is accepted. *)
Variable wallet_check : string -> option error.

(** [new ethers.Contract(address, abi, provider)] throws on an address or an
    interface description it cannot use; [None] means both are accepted. *)
Variable contract_check : string -> string -> option error.

(** Issuing a remote call: the request leaves now, the promise is due after
    the node's latency. *)
Definition issue {A} (p : JsonRpcProvider) (r : rpc A) : M (promise A) :=
  fun h =>
    let a := upstream p A r in
    (Ok {| due := now h + latency a; outcome := settles a; sources := [Call p r] |},
     {| this := this h; now := now h; trace := (trace h ++ [Issued (Call p r)])%list |}).

(** [await p] *)
Definition await {A} (p : promise A) : M A :=
  fun h =>
    let h' := {| this := this h; now := Nat.max (now h) (due p);
                 trace := (trace h ++ [Resumed (sources p)])%list |} in
    match outcome p with
    | Fulfils a => (Ok a, h')
    | Rejects e => (Throw e, h')
    | NeverSettles => (Hang, h)
    end.

(** [Promise.all([p, q])]: fulfils once both have, rejects as soon as one
    rejects. *)
Definition Promise_all {A B} (p : promise A) (q : promise B) : promise (A * B) :=
  let both := (sources p ++ sources q)%list in
  match outcome p, outcome q with
  | Fulfils a, Fulfils b =>
      {| due := Nat.max (due p) (due q); outcome := Fulfils (a, b); sources := both |}
  | Rejects e, Rejects e' =>
      if (due p <=? due q)%nat
      then {| due := due p; outcome := Rejects e; sources := both |}
      else {| due := due q; outcome := Rejects e'; sources := both |}
  | Rejects e, _ => {| due := due p; outcome := Rejects e; sources := both |}
  | _, Rejects e => {| due := due q; outcome := Rejects e; sources := both |}
  | _, _ => {| due := Nat.max (due p) (due q); outcome := NeverSettles; sources := both |}
  end.

(** [provider.method(...)] on whatever [getProvider] returned: only a real
    connection has the method. *)
Definition invoke {A} (provider : slot JsonRpcProvider) (method : string)
    (r : rpc A) : M (promise A) :=
  match provider with
  | Own p => issue p r
  | Inherited _ => throw (TypeError ("provider." ++ method ++ " is not a function"))
  end.

(* ------------------------------------------------------------------ *)
(** ** The methods of [BlockchainService] *)

Definition not_supported (networkName : arg) : error :=
  Error ("Network " ++ template networkName ++ " not supported").

Definition getProvider (networkName : arg) : M (slot JsonRpcProvider) :=
  self <- get_this ;;
  let networkName := default_param networkName (defaultNetwork self) in
  let key := toLowerCase (or_else networkName (defaultNetwork self)) in
  match get (providers self) key with
  | None => throw (not_supported networkName)
  | Some provider => ret provider
  end.


Definition getNetworkStatus (networkName : arg) : M Status.t :=
  self <- get_this ;;
  let networkName := default_param networkName (defaultNetwork self) in
  key <- lift (call_toLowerCase networkName) ;;
  match get (networks self) key with
  | None => throw (not_supported networkName)
  | Some network =>
      try_catch
        (provider <- getProvider networkName ;;
         p <- invoke provider "getBlockNumber" GetBlockNumber ;;
         bn <- await p ;;
         ret {| Status.status := "online"; Status.network := network;
                Status.latestBlock := Some bn; Status.error := None |})
        (fun error =>
         ret {| Status.status := "error"; Status.network := network;
                Status.latestBlock := None; Status.error := Some (message error) |})
  end.

Definition getBlockNumber (networkName : arg) : M Block.t :=
  self <- get_this ;;
  let networkName := default_param networkName (defaultNetwork self) in
  provider <- getProvider networkName ;;
  p <- invoke provider "getBlockNumber" GetBlockNumber ;;
  bn <- await p ;;
  key <- lift (call_toLowerCase networkName) ;;
  ret {| Block.network := get (networks self) key; Block.blockNumber := bn |}.

Definition getWalletBalance (address : string) (networkName : arg) : M Balance.t :=
  self <- get_this ;;
  let networkName := default_param networkName (defaultNetwork self) in
  provider <- getProvider networkName ;;
  p <- invoke provider "getBalance" (GetBalance address) ;;
  balanceWei <- await p ;;
  let balanceEth := Units.formatEther balanceWei in
  key <- lift (call_toLowerCase networkName) ;;
  match get (networks self) key with
  | None => throw (cannot_read "undefined" "name")
  | Some network =>
      ret {| Balance.address := address;
             Balance.network := read_name network;
             Balance.balanceWei := BigInt.toString balanceWei;
             Balance.balanceEth := balanceEth |}
  end.

Definition getTransactionDetails (txHash : string) (networkName : arg)
    : M (option TransactionRequest) :=
  self <- get_this ;;
  let networkName := default_param networkName (defaultNetwork self) in
  provider <- getProvider networkName ;;
  p <- invoke provider "getTransaction" (GetTransaction txHash) ;;
  tx <- await p ;;
  ret tx.

Definition estimateGasCost (tx : TransactionRequest) (networkName : arg)
    : M GasCost.t :=
  self <- get_this ;;
  let networkName := default_param networkName (defaultNetwork self) in
  provider <- getProvider networkName ;;
  p <- invoke provider "estimateGas" (EstimateGas tx) ;;
  gas <- await p ;;
  q <- invoke provider "getFeeData" GetFeeData ;;
  feeData <- await q ;;
  ret {| GasCost.gas := BigInt.toString gas;
         GasCost.maxFeePerGas := toString_or_null (Ethers.maxFeePerGas feeData);
         GasCost.maxPriorityFeePerGas :=
           toString_or_null (Ethers.maxPriorityFeePerGas feeData) |}.

Definition createWallet (privateKey : string) (networkName : arg) : M Wallet :=
  self <- get_this ;;
  let networkName := default_param networkName (defaultNetwork self) in
  provider <- getProvider networkName ;;
  match wallet_check privateKey with
  | Some e => throw e
  | None => ret {| signingKey := privateKey; provider := provider |}
  end.

Definition createContract (contractAddress abi : string) (networkName : arg)
    : M Contract :=
  self <- get_this ;;
  let networkName := default_param networkName (defaultNetwork self) in
  provider <- getProvider networkName ;;
  match contract_check contractAddress abi with
  | Some e => throw e
  | None => ret {| target := contractAddress; interface := abi; runner := provider |}
  end.

(** [wallet.sendTransaction(tx)] *)
Definition Wallet_sendTransaction (wallet : Wallet) (tx : TransactionRequest)
    : M (promise string) :=
  invoke (provider wallet) "sendTransaction" (SendTransaction (signingKey wallet) tx).

(** [txResponse.wait()] for the response of a connection [via]. *)
Definition Response_wait (via : slot JsonRpcProvider) (txHash : string)
    : M (promise TransactionReceipt) :=
  invoke via "wait" (Wait txHash).

Definition sendTransaction (tx : TransactionRequest) (privateKey : string)
    (networkName : arg) : M Handle :=
  self <- get_this ;;
  let networkName := default_param networkName (defaultNetwork self) in
  wallet <- createWallet privateKey networkName ;;
  p <- Wallet_sendTransaction wallet tx ;;
  txResponse <- await p ;;
  ret {| hash := txResponse;
         wait := (w <- Response_wait (provider wallet) txResponse ;; await w) |}.

(** The stubs never return, so they fit every result type. *)
Definition mintCropNFT {A} (crop recipient : string) (networkName : arg) : M A :=
  self <- get_this ;;
  let networkName := default_param networkName (defaultNetwork self) in
  throw (Error "mintCropNFT not implemented: deploy and wire NFT contract").

Definition getNFTDetails {A} (tokenId : string) (networkName : arg) : M A :=
  self <- get_this ;;
  let networkName := default_param networkName (defaultNetwork self) in
  throw (Error "getNFTDetails not implemented: deploy and wire NFT contract").

Definition transferNFT {A} (fromAddress toAddress tokenId : string)
    (networkName : arg) : M A :=
  self <- get_this ;;
  let networkName := default_param networkName (defaultNetwork self) in
  throw (Error "transferNFT not implemented: deploy and wire NFT contract").

Definition createBlockchainPayment {A} (fromAddress toAddress amount : string)
    (description networkName : arg) : M A :=
  self <- get_this ;;
  let description := default_param description "" in
  let networkName := default_param networkName (defaultNetwork self) in
  throw (Error "createBlockchainPayment not implemented").

Definition releaseBlockchainPayment {A} (paymentId : string) (networkName : arg)
    : M A :=
  self <- get_this ;;
  let networkName := default_param networkName (defaultNetwork self) in
  throw (Error "releaseBlockchainPayment not implemented").

Definition getNetworkInfo (networkName : arg) : M Info.t :=
  self <- get_this ;;
  let networkName := default_param networkName (defaultNetwork self) in
  key <- lift (call_toLowerCase networkName) ;;
  let network := get (networks self) key in
  provider <- getProvider networkName ;;
  p <- invoke provider "getBlockNumber" GetBlockNumber ;;
  q <- invoke provider "getFeeData" GetFeeData ;;
  both <- await (Promise_all p q) ;;
  let blockNumber := fst both in
  let feeData := snd both in
  match network with
  | None => throw (cannot_read "undefined" "name")
  | Some network =>
      ret {| Info.name := read_name network;
             Info.rpcUrl := read_field rpcUrl network;
             Info.blockExplorer := read_field blockExplorer network;
             Info.blockNumber := blockNumber;
             Info.feeData :=
               {| Info.gasPrice := toString_or_null (Ethers.gasPrice feeData);
                  Info.maxFeePerGas := toString_or_null (Ethers.maxFeePerGas feeData);
                  Info.maxPriorityFeePerGas :=
                    toString_or_null (Ethers.maxPriorityFeePerGas feeData) |} |}
  end.

End Gateway.

(** [module.exports = new BlockchainService()]: the heap of a process whose
    environment is [env], at any instant and after any history. *)
Definition boot (env : string -> option string) (t : nat) (tr : list event) : heap :=
  {| this := constructor env; now := t; trace := tr |}.

(** The keys of the static registry. *)
Definition registered (env : string -> option string) (k : string) : Prop :=
  is_Some (networks (constructor env) !! k).

(** [s] is [k] up to the casing of its letters. *)
Definition casing_variant (s k : string) : Prop :=
  toLowerCase s = toLowerCase k.

(** The heap once a call has left, and once the method has resumed. *)
Definition after_issue (h : heap) (c : call) : heap :=
  {| this := this h; now := now h; trace := (trace h ++ [Issued c])%list |}.

Definition after_await (h : heap) (d : nat) (cs : list call) : heap :=
  {| this := this h; now := Nat.max (now h) d; trace := (trace h ++ [Resumed cs])%list |}.

(** A stretch of trace in which every call left before the method was
    suspended for the first time: no call waited for another to settle. *)
Definition is_resume (e : event) : bool :=
  match e with
  | Resumed _ => true
  | Issued _ => false
  end.

Fixpoint overlapped (tr : list event) : bool :=
  match tr with
  | [] => true
  | Issued _ :: rest => overlapped rest
  | Resumed _ :: rest => forallb is_resume rest
  end.

(** Reading amounts back: the number a string of decimal digits stands
    for, and the amount in minor units a decimal string stands for at a
    given scale. A string that is no such numeral stands for nothing, and
    neither does one with more fraction digits than the scale has. *)
Module Reading.

Definition digit_value (c : ascii) : option N :=
  let n := N_of_ascii c in
  if ((48 <=? n) && (n <=? 57))%N then Some (n - 48)%N else None.

Fixpoint number (acc : N) (s : list ascii) : option N :=
  match s with
  | [] => Some acc
  | c :: rest =>
      match digit_value c with
      | Some d => number (10 * acc + d) rest
      | None => None
      end
  end.

Definition natural (s : list ascii) : option N :=
  match s with
  | [] => None
  | _ => number 0 s
  end.

Definition signed (read : list ascii -> option N) (s : string) : option Z :=
  match list_ascii_of_string s with
  | c :: rest =>
      if Ascii.eqb c "-"
      then option_map (fun n => (- Z.of_N n)%Z) (read rest)
      else option_map Z.of_N (read (c :: rest))
  | [] => None
  end.

(** A decimal integer literal. *)
Definition integer (s : string) : option Z := signed natural s.

Fixpoint split_point (s : list ascii) : option (list ascii * list ascii) :=
  match s with
  | [] => None
  | c :: rest =>
      if Ascii.eqb c "."
      then Some ([], rest)
      else match split_point rest with
           | Some (whole, fraction) => Some (c :: whole, fraction)
           | None => None
           end
  end.

Definition pow10 (k : nat) : N := (10 ^ N.of_nat k)%N.

Definition magnitude (scale : nat) (s : list ascii) : option N :=
  match split_point s with
  | Some (whole, fraction) =>
      match natural whole, natural fraction with
      | Some w, Some f =>
          if (length fraction <=? scale)%nat
          then Some (w * pow10 scale + f * pow10 (scale - length fraction))%N
          else None
      | _, _ => None
      end
  | None => None
  end.

(** The minor units of a decimal amount: whole * 10^scale + fraction scaled
    up to [scale] digits. *)
Definition minor_units (scale : nat) (s : string) : option Z :=
  signed (magnitude scale) s.

Definition is_digit (c : ascii) : Prop := is_Some (digit_value c).

(** [ds] is a run of digits that stands for [v], also when it continues a
    numeral read so far. *)
Definition reads (ds : list ascii) (v : N) : Prop :=
  Forall is_digit ds /\
  forall k, number k ds = Some (k * pow10 (length ds) + v)%N.

End Reading.

(** A method that leaves the service object as it found it. *)
Definition keeps_this {A} (m : M A) : Prop :=
  forall h, this (snd (m h)) = this h.

(** A stub's message: the name of the operation, then "not implemented". *)
Definition NotImplemented (operation : string) (e : error) : Prop :=
  exists rest, e = Error (operation ++ " not implemented" ++ rest).

(** A process without overrides in its environment, a node that answers
    every read after a few ticks, rejects the estimation of a transfer of a
    negative value, accepts every submission and never confirms one. *)
Definition no_env : string -> option string := fun _ => None.

Definition any_key : string -> option error := fun _ => None.

Definition test_fees : FeeData :=
  {| Ethers.gasPrice := Some 30%Z;
     Ethers.maxFeePerGas := Some 40%Z;
     Ethers.maxPriorityFeePerGas := None |}.

Definition test_node : node :=
  fun _ _ r =>
    match r in rpc T return reply T with
    | GetBlockNumber => {| latency := 3; settles := Fulfils 100%Z |}
    | GetBalance _ => {| latency := 2; settles := Fulfils 1000000000000000000%Z |}
    | GetTransaction _ => {| latency := 1; settles := Fulfils None |}
    | EstimateGas tx =>
        if (Ethers.value tx <? 0)%Z
        then {| latency := 3; settles := Rejects (Error "execution reverted: negative value") |}
        else {| latency := 3; settles := Fulfils 21000%Z |}
    | GetFeeData => {| latency := 5; settles := Fulfils test_fees |}
    | SendTransaction _ _ => {| latency := 4; settles := Fulfils "0xabc" |}
    | Wait _ => {| latency := 0; settles := NeverSettles |}
    end.

Definition transfer (amount : Z) : TransactionRequest :=
  {| Ethers.to := "0x01"; Ethers.value := amount; Ethers.data := "" |}.

(** A node that refuses every call after 7 ticks. *)
Definition down_node : node :=
  fun _ _ _ => {| latency := 7; settles := Rejects (Error "connection refused") |}.

(** A node whose block-number call fails quickly, whose fee lookup is slow,
    and which confirms what it accepted. *)
Definition flaky_node : node :=
  fun p _ r =>
    match r in rpc T return reply T with
    | GetBlockNumber => {| latency := 2; settles := Rejects (Error "timeout") |}
    | GetFeeData => {| latency := 9; settles := Fulfils test_fees |}
    | Wait _ =>
        {| latency := 6;
           settles := Fulfils {| Ethers.blockNumber := 101%Z; Ethers.succeeded := true |} |}
    | r' => test_node p _ r'
    end.

(** A key check that refuses the empty key, and an interface check that
    refuses the empty interface description. *)
Definition strict_key : string -> option error :=
  fun k => if String.eqb k "" then Some (TypeError "invalid private key") else None.

Definition strict_abi : string -> string -> option error :=
  fun _ abi => if String.eqb abi "" then Some (TypeError "invalid fragment") else None.

(** What the methods add to the trace of a heap. *)
Definition added (before after : heap) : list event :=
  skipn (length (trace before)) (trace after).

(* ------------------------------------------------------------------ *)
(** ** Strings *)

Lemma lower_char_idem c : lower_char (lower_char c) = lower_char c.
Proof.
  destruct c as [[] [] [] [] [] [] [] []]; reflexivity.
Qed.

Lemma toLowerCase_idem s : toLowerCase (toLowerCase s) = toLowerCase s.
Proof.
  induction s as [|c s IH]; simpl; [reflexivity|].
  now rewrite lower_char_idem, IH.
Qed.

Lemma toLowerCase_empty s : toLowerCase s = "" -> s = "".
Proof. destruct s; simpl; [reflexivity | discriminate]. Qed.

Lemma toLowerCase_not_Mumbai s : toLowerCase s <> "polygonMumbai".
Proof.
  intros E. pose proof (toLowerCase_idem s) as I.
  rewrite E in I. discriminate I.
Qed.

Lemma or_else_Str s d : s <> "" -> or_else (Str s) d = s.
Proof.
  intros N. unfold or_else.
  destruct (String.eqb_spec s ""); [contradiction | reflexivity].
Qed.

(* ------------------------------------------------------------------ *)
(** ** Resolution *)

Section Resolution.

Variable env : string -> option string.

Lemma registered_keys k :
  registered env k <-> k = "ethereum" \/ k = "polygon" \/ k = "polygonMumbai".
Proof.
  unfold registered, constructor; simpl. split.
  - intros [v Hv].
    destruct (decide (k = "ethereum")) as [|N1]; [auto|].
    destruct (decide (k = "polygon")) as [|N2]; [auto|].
    destruct (decide (k = "polygonMumbai")) as [|N3]; [auto|].
    rewrite !lookup_insert_ne, lookup_empty in Hv by congruence. discriminate.
  - intros [-> | [-> | ->]]; eexists; reflexivity.
Qed.

Lemma getProvider_Str s t tr :
  s <> "" ->
  getProvider (Str s) (boot env t tr) =
  match get (providers (constructor env)) (toLowerCase s) with
  | None => (Throw (not_supported (Str s)), boot env t tr)
  | Some p => (Ok p, boot env t tr)
  end.
Proof.
  intros N. unfold getProvider, bind, get_this, boot.
  cbn [this default_param]. rewrite (or_else_Str _ _ N).
  destruct (get _ _); reflexivity.
Qed.

(** Resolution looks at the lower-cased key only. *)
Lemma getProvider_ethereum s t tr :
  casing_variant s "ethereum" ->
  getProvider (Str s) (boot env t tr) = (Ok (Own (ethereum_provider env)), boot env t tr).
Proof.
  unfold casing_variant. simpl. intros E.
  rewrite getProvider_Str by (intros ->; discriminate E).
  rewrite E. reflexivity.
Qed.

Lemma getProvider_polygon s t tr :
  casing_variant s "polygon" ->
  getProvider (Str s) (boot env t tr) = (Ok (Own (polygon_provider env)), boot env t tr).
Proof.
  unfold casing_variant. simpl. intros E.
  rewrite getProvider_Str by (intros ->; discriminate E).
  rewrite E. reflexivity.
Qed.

(** No key supplied: [undefined], [null] and [''] all mean the default. *)
Lemma getProvider_default a t tr :
  a = Undefined \/ a = Null \/ a = Str "" ->
  getProvider a (boot env t tr) = (Ok (Own (polygon_provider env)), boot env t tr).
Proof. intros [-> | [-> | ->]]; reflexivity. Qed.

Lemma get_providers_unknown k :
  k <> "ethereum" -> k <> "polygon" -> k <> "polygonMumbai" ->
  k ∉ Object_prototype ->
  get (providers (constructor env)) k = None.
Proof.
  intros N1 N2 N3 NP. unfold get, constructor; simpl.
  rewrite !lookup_insert_ne, lookup_empty by congruence.
  now rewrite bool_decide_eq_false_2.
Qed.

(** X3. On the exported service, a non-empty key whose lower-case form is
    neither [ethereum] nor [polygon] nor a property of [Object.prototype] is
    refused: the error names the key as the caller spelled it, and the heap
    is untouched. *)
Lemma getProvider_unsupported s t tr :
  s <> "" ->
  toLowerCase s <> "ethereum" -> toLowerCase s <> "polygon" ->
  toLowerCase s ∉ Object_prototype ->
  getProvider (Str s) (boot env t tr) =
  (Throw (Error ("Network " ++ s ++ " not supported")), boot env t tr).
Proof.
  intros N N1 N2 NP. rewrite getProvider_Str by exact N.
  rewrite get_providers_unknown; auto using toLowerCase_not_Mumbai.
Qed.

(** Whatever [getProvider] returns, it is never [null] or [undefined]: it
    returns a value found under the key, or it throws the refusal. *)
Lemma getProvider_total a h :
  (exists p, getProvider a h = (Ok p, h)) \/
  getProvider a h = (Throw (not_supported (default_param a (defaultNetwork (this h)))), h).
Proof.
  unfold getProvider, bind, get_this.
  destruct (get _ _) as [p|]; [left; exists p|right]; reflexivity.
Qed.

End Resolution.

(** C1. [polygonMumbai] is a key of the static registry, in both the profile
    table and the connection table, yet resolving it fails: the lookup
    lower-cases the key and the tables hold it in camel case. So not every
    registered key resolves; this one fails under every casing, the
    canonical spelling included. *)
Theorem getProvider_polygonMumbai_fails (env : string -> option string) t tr :
  registered env "polygonMumbai" /\
  providers (constructor env) !! "polygonMumbai" = Some (polygonMumbai_provider env) /\
  getProvider (Str "polygonMumbai") (boot env t tr) =
    (Throw (Error "Network polygonMumbai not supported"), boot env t tr).
Proof.
  split; [|split].
  - apply registered_keys. auto.
  - reflexivity.
  - reflexivity.
Qed.

(** C8. [constructor] names no registered network, yet resolving it does not
    fail: the lookup finds the property every object literal inherits and
    returns it as if it were a connection. *)
Theorem getProvider_constructor_resolves (env : string -> option string) t tr :
  ~ registered env "constructor" /\
  providers (constructor env) !! "constructor" = None /\
  getProvider (Str "constructor") (boot env t tr) =
    (Ok (Inherited "constructor"), boot env t tr).
Proof.
  split; [|split].
  - rewrite registered_keys. intros [E|[E|E]]; discriminate E.
  - reflexivity.
  - reflexivity.
Qed.

(* ------------------------------------------------------------------ *)
(** ** Resolution inside the other methods *)

Lemma default_param_idem a d : default_param (default_param a d) d = default_param a d.
Proof. destruct a; reflexivity. Qed.

Lemma getProvider_default_param a h :
  getProvider (default_param a (defaultNetwork (this h))) h = getProvider a h.
Proof.
  unfold getProvider, bind, get_this. rewrite default_param_idem.
  destruct a; reflexivity.
Qed.

Lemma getProvider_heap a h : snd (getProvider a h) = h.
Proof. destruct (getProvider_total a h) as [[p E]|E]; now rewrite E. Qed.

Lemma getProvider_resolved a h p :
  fst (getProvider a h) = Ok p ->
  getProvider (default_param a (defaultNetwork (this h))) h = (Ok p, h).
Proof.
  intros E. rewrite getProvider_default_param.
  rewrite (surjective_pairing (getProvider a h)), E, getProvider_heap. reflexivity.
Qed.

(** Every refusal of [getProvider] is a refusal of the key. *)
Lemma getProvider_throws a h e :
  fst (getProvider a h) = Throw e -> exists a', e = not_supported a'.
Proof.
  destruct (getProvider_total a h) as [[p E]|E]; rewrite E; simpl; [discriminate|].
  intros [= <-]. eauto.
Qed.

(* ------------------------------------------------------------------ *)
(** ** Status *)

Section Status.

Variable upstream : node.

(** What [getNetworkStatus] does for a key found in both tables. *)
Lemma getNetworkStatus_run s h nw p :
  get (networks (this h)) (toLowerCase s) = Some nw ->
  getProvider (Str s) h = (Ok (Own p), h) ->
  getNetworkStatus upstream (Str s) h =
    let a := upstream p Z GetBlockNumber in
    let c := Call p GetBlockNumber in
    let h1 := after_issue h c in
    let h2 := after_await h1 (now h + latency a) [c] in
    match settles a with
    | Fulfils bn =>
        (Ok {| Status.status := "online"; Status.network := nw;
               Status.latestBlock := Some bn; Status.error := None |}, h2)
    | Rejects e =>
        (Ok {| Status.status := "error"; Status.network := nw;
               Status.latestBlock := None; Status.error := Some (message e) |}, h2)
    | NeverSettles => (Hang, h1)
    end.
Proof.
  intros E G.
  unfold getNetworkStatus, bind, get_this, lift, call_toLowerCase, try_catch, ret, throw.
  cbn [default_param]. rewrite E, G. cbn [invoke]. unfold issue, await.
  cbn [outcome due sources now this trace].
  destruct (settles _); reflexivity.
Qed.

(** The four cases below differ in the network and in what the node says. *)
Ltac status_case profile connection resolves :=
  let V := fresh "V" in
  let R := fresh "R" in
  intros V R;
  rewrite (getNetworkStatus_run _ _ (Own profile) connection);
  [ cbv zeta; now rewrite R
  | unfold casing_variant in V; simpl in V; cbn [this boot]; now rewrite V
  | now apply resolves ].

(** On the two networks held under lower-case keys the status check never
    throws on an upstream failure, under any casing of the key. *)
Lemma getNetworkStatus_polygon_failure env s t tr e :
  casing_variant s "polygon" ->
  settles (upstream (polygon_provider env) Z GetBlockNumber) = Rejects e ->
  fst (getNetworkStatus upstream (Str s) (boot env t tr)) =
    Ok {| Status.status := "error"; Status.network := Own (polygon_profile env);
          Status.latestBlock := None; Status.error := Some (message e) |}.
Proof.
  status_case (polygon_profile env) (polygon_provider env) getProvider_polygon.
Qed.

Lemma getNetworkStatus_polygon_online env s t tr bn :
  casing_variant s "polygon" ->
  settles (upstream (polygon_provider env) Z GetBlockNumber) = Fulfils bn ->
  fst (getNetworkStatus upstream (Str s) (boot env t tr)) =
    Ok {| Status.status := "online"; Status.network := Own (polygon_profile env);
          Status.latestBlock := Some bn; Status.error := None |}.
Proof.
  status_case (polygon_profile env) (polygon_provider env) getProvider_polygon.
Qed.

Lemma getNetworkStatus_ethereum_failure env s t tr e :
  casing_variant s "ethereum" ->
  settles (upstream (ethereum_provider env) Z GetBlockNumber) = Rejects e ->
  fst (getNetworkStatus upstream (Str s) (boot env t tr)) =
    Ok {| Status.status := "error"; Status.network := Own (ethereum_profile env);
          Status.latestBlock := None; Status.error := Some (message e) |}.
Proof.
  status_case (ethereum_profile env) (ethereum_provider env) getProvider_ethereum.
Qed.

Lemma getNetworkStatus_ethereum_online env s t tr bn :
  casing_variant s "ethereum" ->
  settles (upstream (ethereum_provider env) Z GetBlockNumber) = Fulfils bn ->
  fst (getNetworkStatus upstream (Str s) (boot env t tr)) =
    Ok {| Status.status := "online"; Status.network := Own (ethereum_profile env);
          Status.latestBlock := Some bn; Status.error := None |}.
Proof.
  status_case (ethereum_profile env) (ethereum_provider env) getProvider_ethereum.
Qed.

End Status.

(** C3. For the registered network [polygonMumbai] the status check returns
    no result at all: whatever the node would answer, the lower-cased key
    is missing from the profile table and the method throws before its
    [try] block, so neither an "online" nor an "error" status comes back.
    On [ethereum] and [polygon] the check behaves as specified (lemmas
    above). *)
Theorem getNetworkStatus_polygonMumbai_throws
    (upstream : node) (env : string -> option string) t tr :
  registered env "polygonMumbai" /\
  getNetworkStatus upstream (Str "polygonMumbai") (boot env t tr) =
    (Throw (Error "Network polygonMumbai not supported"), boot env t tr).
Proof.
  split.
  - apply registered_keys. auto.
  - reflexivity.
Qed.

(* ------------------------------------------------------------------ *)
(** ** The stubs *)

(** What the five bodies do, for every input and heap. *)
Lemma stub_bodies (A : Type) (x y z : string) (d networkName : arg) (h : heap) :
  mintCropNFT (A := A) x y networkName h =
    (Throw (Error "mintCropNFT not implemented: deploy and wire NFT contract"), h) /\
  getNFTDetails (A := A) x networkName h =
    (Throw (Error "getNFTDetails not implemented: deploy and wire NFT contract"), h) /\
  transferNFT (A := A) x y z networkName h =
    (Throw (Error "transferNFT not implemented: deploy and wire NFT contract"), h) /\
  createBlockchainPayment (A := A) x y z d networkName h =
    (Throw (Error "createBlockchainPayment not implemented"), h) /\
  releaseBlockchainPayment (A := A) x networkName h =
    (Throw (Error "releaseBlockchainPayment not implemented"), h).
Proof. repeat split. Qed.

Lemma NotImplemented_intro operation rest :
  NotImplemented operation (Error (operation ++ " not implemented" ++ rest)).
Proof. now exists rest. Qed.

(** C4. Each of the five stubs fails the same way on every input: it throws
    an error whose message starts with the name of the operation followed by
    "not implemented", and the heap is left as it was, so no call has gone
    upstream and no time has passed. *)
Theorem stubs_fail_without_upstream_call
    (A : Type) (x y z : string) (d networkName : arg) (h : heap) :
  (exists e, mintCropNFT (A := A) x y networkName h = (Throw e, h)
             /\ NotImplemented "mintCropNFT" e) /\
  (exists e, getNFTDetails (A := A) x networkName h = (Throw e, h)
             /\ NotImplemented "getNFTDetails" e) /\
  (exists e, transferNFT (A := A) x y z networkName h = (Throw e, h)
             /\ NotImplemented "transferNFT" e) /\
  (exists e, createBlockchainPayment (A := A) x y z d networkName h = (Throw e, h)
             /\ NotImplemented "createBlockchainPayment" e) /\
  (exists e, releaseBlockchainPayment (A := A) x networkName h = (Throw e, h)
             /\ NotImplemented "releaseBlockchainPayment" e).
Proof.
  destruct (stub_bodies A x y z d networkName h) as (E1 & E2 & E3 & E4 & E5).
  repeat split; eexists; (split; [eassumption|]).
  - apply (NotImplemented_intro "mintCropNFT" ": deploy and wire NFT contract").
  - apply (NotImplemented_intro "getNFTDetails" ": deploy and wire NFT contract").
  - apply (NotImplemented_intro "transferNFT" ": deploy and wire NFT contract").
  - apply (NotImplemented_intro "createBlockchainPayment" "").
  - apply (NotImplemented_intro "releaseBlockchainPayment" "").
Qed.

(** C10. Where resolution of the network key would fail, a stub still fails
    as unimplemented: its error is the stub's own and not the one
    [getProvider] throws for that key. *)
Theorem stubs_fail_before_resolution
    (A : Type) (x y z : string) (d networkName : arg) (h : heap) (refusal : error) :
  fst (getProvider networkName h) = Throw refusal ->
  (exists e, fst (mintCropNFT (A := A) x y networkName h) = Throw e
             /\ NotImplemented "mintCropNFT" e /\ e <> refusal) /\
  (exists e, fst (getNFTDetails (A := A) x networkName h) = Throw e
             /\ NotImplemented "getNFTDetails" e /\ e <> refusal) /\
  (exists e, fst (transferNFT (A := A) x y z networkName h) = Throw e
             /\ NotImplemented "transferNFT" e /\ e <> refusal) /\
  (exists e, fst (createBlockchainPayment (A := A) x y z d networkName h) = Throw e
             /\ NotImplemented "createBlockchainPayment" e /\ e <> refusal) /\
  (exists e, fst (releaseBlockchainPayment (A := A) x networkName h) = Throw e
             /\ NotImplemented "releaseBlockchainPayment" e /\ e <> refusal).
Proof.
  intros R. destruct (getProvider_throws _ _ _ R) as [a' ->].
  destruct (stub_bodies A x y z d networkName h) as (E1 & E2 & E3 & E4 & E5).
  rewrite E1, E2, E3, E4, E5.
  repeat split; eexists; (split; [reflexivity|]); (split; [|discriminate]).
  - apply (NotImplemented_intro "mintCropNFT" ": deploy and wire NFT contract").
  - apply (NotImplemented_intro "getNFTDetails" ": deploy and wire NFT contract").
  - apply (NotImplemented_intro "transferNFT" ": deploy and wire NFT contract").
  - apply (NotImplemented_intro "createBlockchainPayment" "").
  - apply (NotImplemented_intro "releaseBlockchainPayment" "").
Qed.

Lemma stubs_fail_before_resolution_witness :
  fst (getProvider (Str "solana") (boot no_env 0 [])) =
    Throw (Error "Network solana not supported") /\
  exists e, fst (mintCropNFT (A := unit) "wheat" "0x02" (Str "solana") (boot no_env 0 []))
            = Throw e
            /\ NotImplemented "mintCropNFT" e
            /\ e <> Error "Network solana not supported".
Proof.
  split; [reflexivity|].
  apply (stubs_fail_before_resolution unit "wheat" "0x02" "" Undefined (Str "solana")
           (boot no_env 0 []) (Error "Network solana not supported")).
  reflexivity.
Defined.

(* ------------------------------------------------------------------ *)
(** ** Gas estimation *)

Section Estimation.

Variable upstream : node.

(** What [estimateGasCost] does on a resolved connection. *)
Lemma estimateGasCost_run tx a h p :
  fst (getProvider a h) = Ok (Own p) ->
  estimateGasCost upstream tx a h =
    let first := Call p (EstimateGas tx) in
    let second := Call p GetFeeData in
    let g := upstream p Z (EstimateGas tx) in
    let f := upstream p FeeData GetFeeData in
    let h1 := after_issue h first in
    let h2 := after_await h1 (now h + latency g) [first] in
    let h3 := after_issue h2 second in
    let h4 := after_await h3 (now h2 + latency f) [second] in
    match settles g with
    | Rejects e => (Throw e, h2)
    | NeverSettles => (Hang, h1)
    | Fulfils gas =>
        match settles f with
        | Rejects e => (Throw e, h4)
        | NeverSettles => (Hang, h3)
        | Fulfils feeData =>
            (Ok {| GasCost.gas := BigInt.toString gas;
                   GasCost.maxFeePerGas := toString_or_null (Ethers.maxFeePerGas feeData);
                   GasCost.maxPriorityFeePerGas :=
                     toString_or_null (Ethers.maxPriorityFeePerGas feeData) |}, h4)
        end
    end.
Proof.
  intros G. apply getProvider_resolved in G.
  unfold estimateGasCost, bind, get_this, ret. rewrite G.
  cbn [invoke]. unfold issue, await. cbn [outcome due sources now this trace].
  destruct (settles (upstream p Z (EstimateGas tx))); try reflexivity.
  cbn [outcome due sources now this trace].
  destruct (settles (upstream p FeeData GetFeeData)); reflexivity.
Qed.

(** C5. When the key resolves to a connection and the node rejects the
    estimation of [tx], [estimateGasCost] fails with the very error the node
    gave, message included. *)
Theorem estimateGasCost_surfaces_rejection tx a h p e :
  fst (getProvider a h) = Ok (Own p) ->
  settles (upstream p Z (EstimateGas tx)) = Rejects e ->
  fst (estimateGasCost upstream tx a h) = Throw e.
Proof.
  intros G R. rewrite (estimateGasCost_run tx a h p G). cbv zeta. now rewrite R.
Qed.

(** X13. When both calls succeed, the fee lookup of [estimateGasCost] leaves
    only after the estimation has settled, and the method takes the sum of
    the two latencies. *)
Lemma estimateGasCost_sequential tx a h p gas feeData :
  fst (getProvider a h) = Ok (Own p) ->
  settles (upstream p Z (EstimateGas tx)) = Fulfils gas ->
  settles (upstream p FeeData GetFeeData) = Fulfils feeData ->
  let h' := snd (estimateGasCost upstream tx a h) in
  trace h' = (trace h ++ [Issued (Call p (EstimateGas tx));
                          Resumed [Call p (EstimateGas tx)];
                          Issued (Call p GetFeeData);
                          Resumed [Call p GetFeeData]])%list /\
  now h' = now h + latency (upstream p Z (EstimateGas tx))
                 + latency (upstream p FeeData GetFeeData).
Proof.
  intros G R1 R2. rewrite (estimateGasCost_run tx a h p G). cbv zeta.
  rewrite R1, R2. unfold after_await, after_issue. cbn [snd trace now].
  split.
  - now rewrite <- !app_assoc.
  - lia.
Qed.

End Estimation.

Lemma estimateGasCost_surfaces_rejection_witness :
  fst (getProvider (Str "Polygon") (boot no_env 0 [])) = Ok (Own (polygon_provider no_env)) /\
  settles (test_node (polygon_provider no_env) Z (EstimateGas (transfer (-1)))) =
    Rejects (Error "execution reverted: negative value") /\
  fst (estimateGasCost test_node (transfer (-1)) (Str "Polygon") (boot no_env 0 [])) =
    Throw (Error "execution reverted: negative value").
Proof.
  split; [reflexivity|]. split; [reflexivity|].
  apply (estimateGasCost_surfaces_rejection test_node (transfer (-1)) (Str "Polygon")
           (boot no_env 0 []) (polygon_provider no_env)); reflexivity.
Defined.

(* ------------------------------------------------------------------ *)
(** ** Network info *)

Section NetworkInfo.

Variable upstream : node.

(** X14. When both calls succeed, both calls of [getNetworkInfo] leave
    before the method is suspended, and it resumes when the slower of the
    two has settled: it takes the larger of the two latencies. *)
Lemma getNetworkInfo_concurrent s h p nw bn feeData :
  fst (getProvider (Str s) h) = Ok (Own p) ->
  get (networks (this h)) (toLowerCase s) = Some nw ->
  settles (upstream p Z GetBlockNumber) = Fulfils bn ->
  settles (upstream p FeeData GetFeeData) = Fulfils feeData ->
  let h' := snd (getNetworkInfo upstream (Str s) h) in
  trace h' = (trace h ++ [Issued (Call p GetBlockNumber);
                          Issued (Call p GetFeeData);
                          Resumed [Call p GetBlockNumber; Call p GetFeeData]])%list /\
  now h' = now h + Nat.max (latency (upstream p Z GetBlockNumber))
                          (latency (upstream p FeeData GetFeeData)) /\
  exists info, fst (getNetworkInfo upstream (Str s) h) = Ok info
               /\ Info.blockNumber info = bn.
Proof.
  intros G E R1 R2. apply getProvider_resolved in G. cbn [default_param] in G.
  unfold getNetworkInfo, bind, get_this, lift, call_toLowerCase, ret.
  cbn [default_param]. rewrite G, E.
  cbn [invoke]. unfold issue, await, Promise_all.
  cbn [outcome due sources now this trace]. rewrite R1, R2.
  cbn [outcome due sources now this trace snd fst app].
  split; [|split].
  - now rewrite <- !app_assoc.
  - lia.
  - eexists. split; reflexivity.
Qed.

End NetworkInfo.

(** C2. [estimateGasCost] does not issue its two calls together. On the
    default network, against a node that takes 3 ticks to estimate and 5 to
    report fees, the fee lookup leaves only after the estimation has
    settled and the method returns after 3 + 5 ticks; [getNetworkInfo], on
    the same node (3 and 5 ticks), has both calls out before it is suspended
    and returns after 5. *)
Theorem estimateGasCost_awaits_between_calls :
  let h := boot no_env 0 [] in
  let p := polygon_provider no_env in
  let estimated := snd (estimateGasCost test_node (transfer 1) Undefined h) in
  let informed := snd (getNetworkInfo test_node Undefined h) in
  trace estimated = [Issued (Call p (EstimateGas (transfer 1)));
                     Resumed [Call p (EstimateGas (transfer 1))];
                     Issued (Call p GetFeeData);
                     Resumed [Call p GetFeeData]] /\
  overlapped (trace estimated) = false /\
  now estimated = 8 /\
  trace informed = [Issued (Call p GetBlockNumber);
                    Issued (Call p GetFeeData);
                    Resumed [Call p GetBlockNumber; Call p GetFeeData]] /\
  overlapped (trace informed) = true /\
  now informed = 5.
Proof. repeat split. Qed.

(* ------------------------------------------------------------------ *)
(** ** Submission *)

Section Submission.

Variable upstream : node.
Variable wallet_check : string -> option error.

Lemma createWallet_run key a h :
  createWallet wallet_check key a h =
    match fst (getProvider a h) with
    | Ok provider =>
        match wallet_check key with
        | Some e => (Throw e, h)
        | None => (Ok {| signingKey := key; provider := provider |}, h)
        end
    | Throw e => (Throw e, h)
    | Hang => (Hang, h)
    end.
Proof.
  unfold createWallet, bind, get_this. rewrite getProvider_default_param.
  rewrite (surjective_pairing (getProvider a h)), getProvider_heap. cbn [fst].
  destruct (fst (getProvider a h)); try reflexivity.
  destruct (wallet_check key); reflexivity.
Qed.

(** C6. Once the key resolves, the signing key is accepted and the node
    accepts the submission with hash [txHash], [sendTransaction] returns a
    handle with that hash. Up to its return it has issued the submission and
    nothing else, and it resumed when the submission settled; the
    confirmation call is issued by the handle's [wait], which the method
    has not run. Running [wait] afterwards is what issues it, and where the
    confirmation never settles, only that later run hangs. *)
Theorem sendTransaction_does_not_wait tx key a h p txHash :
  fst (getProvider a h) = Ok (Own p) ->
  wallet_check key = None ->
  settles (upstream p string (SendTransaction key tx)) = Fulfils txHash ->
  let sent := Call p (SendTransaction key tx) in
  let confirmed := Call p (Wait txHash) in
  let h' := after_await (after_issue h sent)
              (now h + latency (upstream p string (SendTransaction key tx))) [sent] in
  exists handle,
    sendTransaction upstream wallet_check tx key a h = (Ok handle, h') /\
    hash handle = txHash /\
    trace h' = (trace h ++ [Issued sent; Resumed [sent]])%list /\
    wait handle = (w <- issue upstream p (Wait txHash) ;; await w) /\
    (settles (upstream p TransactionReceipt (Wait txHash)) = NeverSettles ->
     wait handle h' = (Hang, after_issue h' confirmed)).
Proof.
  intros G K S sent confirmed h'.
  eexists. split; [|split; [|split; [|split]]].
  - unfold sendTransaction, bind, get_this, ret.
    rewrite createWallet_run, getProvider_default_param, G, K.
    unfold Wallet_sendTransaction. cbn [provider signingKey invoke].
    unfold issue, await. cbn [outcome due sources now this trace]. rewrite S.
    reflexivity.
  - reflexivity.
  - unfold h', after_await, after_issue. cbn [trace]. now rewrite <- app_assoc.
  - reflexivity.
  - intros N. cbn [wait provider Response_wait invoke].
    unfold bind, issue, await. cbn [outcome due sources now this trace].
    rewrite N. reflexivity.
Qed.

(* ------------------------------------------------------------------ *)
(** ** The service object is read, never written *)

Lemma keeps_ret {A} (a : A) : keeps_this (ret a).
Proof. intros h. reflexivity. Qed.

Lemma keeps_throw {A} e : keeps_this (throw (A := A) e).
Proof. intros h. reflexivity. Qed.

Lemma keeps_bind {A B} (m : M A) (k : A -> M B) :
  keeps_this m -> (forall a, keeps_this (k a)) -> keeps_this (bind m k).
Proof.
  intros Hm Hk h. unfold bind. specialize (Hm h).
  destruct (m h) as [[a|e|] h1]; cbn [snd] in *; try exact Hm.
  now rewrite Hk.
Qed.

Lemma keeps_get_this : keeps_this get_this.
Proof. intros h. reflexivity. Qed.

Lemma keeps_issue {A} p (r : rpc A) : keeps_this (issue upstream p r).
Proof. intros h. reflexivity. Qed.

Lemma keeps_await {A} (p : promise A) : keeps_this (await p).
Proof. intros h. unfold await. destruct (outcome p); reflexivity. Qed.

Lemma keeps_invoke {A} v method (r : rpc A) : keeps_this (invoke upstream v method r).
Proof. destruct v; [apply keeps_issue | apply keeps_throw]. Qed.

Lemma keeps_getProvider a : keeps_this (getProvider a).
Proof. intros h. now rewrite getProvider_heap. Qed.

Lemma keeps_createWallet key a : keeps_this (createWallet wallet_check key a).
Proof.
  intros h. rewrite createWallet_run.
  destruct (fst (getProvider a h)); try reflexivity.
  destruct (wallet_check key); reflexivity.
Qed.

Lemma keeps_sendTransaction tx key a :
  keeps_this (sendTransaction upstream wallet_check tx key a).
Proof.
  unfold sendTransaction.
  apply keeps_bind; [apply keeps_get_this|]. intros self.
  apply keeps_bind; [apply keeps_createWallet|]. intros wallet.
  apply keeps_bind; [apply keeps_invoke|]. intros p.
  apply keeps_bind; [apply keeps_await|]. intros txResponse.
  apply keeps_ret.
Qed.

(** C9. The signing key stays in the call. [createWallet] leaves the whole
    heap as it found it; [sendTransaction] leaves the service object as it
    found it, whatever the key and whatever the node answers, so the object
    after a call is the same for any two keys; and the only thing
    [sendTransaction] adds to the trace is the submission itself and the
    resumption after it. *)
Theorem signing_key_not_retained tx key key' a h :
  snd (createWallet wallet_check key a h) = h /\
  this (snd (sendTransaction upstream wallet_check tx key a h)) = this h /\
  this (snd (sendTransaction upstream wallet_check tx key a h)) =
    this (snd (sendTransaction upstream wallet_check tx key' a h)) /\
  (forall e, In e (skipn (length (trace h))
                     (trace (snd (sendTransaction upstream wallet_check tx key a h)))) ->
     exists p, e = Issued (Call p (SendTransaction key tx))
            \/ e = Resumed [Call p (SendTransaction key tx)]).
Proof.
  split; [|split; [|split]].
  - rewrite createWallet_run.
    destruct (fst (getProvider a h)); try reflexivity.
    destruct (wallet_check key); reflexivity.
  - apply keeps_sendTransaction.
  - now rewrite !keeps_sendTransaction.
  - unfold sendTransaction, bind, get_this, ret.
    rewrite createWallet_run, getProvider_default_param.
    destruct (fst (getProvider a h)) as [[p|k]|e|]; cbn [snd trace];
      try (rewrite skipn_all; intros e' []).
    + destruct (wallet_check key); cbn [snd trace];
        try (rewrite skipn_all; intros e' []).
      unfold Wallet_sendTransaction. cbn [provider signingKey invoke].
      unfold issue, await. cbn [outcome due sources now this trace].
      destruct (settles _); cbn [snd trace];
        rewrite <- ?app_assoc, skipn_app, skipn_all, Nat.sub_diag;
        cbn [skipn app]; intros e' Hin; exists p; simpl in Hin; intuition (subst; auto).
    + destruct (wallet_check key); cbn [snd trace];
        rewrite skipn_all; intros e' [].
Qed.

End Submission.

Lemma sendTransaction_does_not_wait_witness :
  fst (getProvider Undefined (boot no_env 0 [])) = Ok (Own (polygon_provider no_env)) /\
  any_key "0xkey" = None /\
  settles (test_node (polygon_provider no_env) string (SendTransaction "0xkey" (transfer 1)))
    = Fulfils "0xabc" /\
  exists handle h',
    sendTransaction test_node any_key (transfer 1) "0xkey" Undefined (boot no_env 0 [])
      = (Ok handle, h') /\
    hash handle = "0xabc" /\
    fst (wait handle h') = Hang.
Proof.
  split; [reflexivity|]. split; [reflexivity|]. split; [reflexivity|].
  destruct (sendTransaction_does_not_wait test_node any_key (transfer 1) "0xkey" Undefined
              (boot no_env 0 []) (polygon_provider no_env) "0xabc"
              eq_refl eq_refl eq_refl) as (handle & E & Hh & _ & _ & W).
  exists handle. eexists. split; [exact E|]. split; [exact Hh|].
  now rewrite (W eq_refl).
Defined.

(* ------------------------------------------------------------------ *)
(** ** Amounts *)

Section Amounts.

Import Reading.
Local Open Scope N_scope.

Lemma pow10_S k : pow10 (S k) = 10 * pow10 k.
Proof. unfold pow10. rewrite Nat2N.inj_succ, N.pow_succ_r'. reflexivity. Qed.

Lemma pow10_add j k : pow10 (j + k) = pow10 j * pow10 k.
Proof. unfold pow10. now rewrite Nat2N.inj_add, N.pow_add_r. Qed.

Lemma pow10_pos k : 0 < pow10 k.
Proof. unfold pow10. apply N.neq_0_lt_0, N.pow_nonzero. discriminate. Qed.

Lemma reads_nil : reads [] 0.
Proof. split; [constructor|]. intros k. simpl. f_equal. unfold pow10. simpl. lia. Qed.

Lemma reads_cons c d ds v :
  digit_value c = Some d -> reads ds v -> reads (c :: ds) (d * pow10 (length ds) + v).
Proof.
  intros D [F R]. split.
  - constructor; [unfold is_digit; rewrite D; eauto | exact F].
  - intros k. simpl number. rewrite D, R. f_equal. cbn [length]. rewrite pow10_S. lia.
Qed.

Lemma reads_eq ds v w : reads ds v -> v = w -> reads ds w.
Proof. now intros R <-. Qed.

Lemma reads_exists ds : Forall is_digit ds -> exists v, reads ds v.
Proof.
  induction 1 as [|c ds [d D] _ [v IH]].
  - exists 0. apply reads_nil.
  - eexists. apply (reads_cons _ _ _ _ D IH).
Qed.

Lemma reads_fun ds v w : reads ds v -> reads ds w -> v = w.
Proof.
  intros [_ R1] [_ R2]. specialize (R1 0). rewrite R2 in R1. injection R1. lia.
Qed.

Lemma number_app k a b :
  number k (a ++ b) = match number k a with Some x => number x b | None => None end.
Proof.
  revert k. induction a as [|c a IH]; intros k; simpl; [reflexivity|].
  destruct (digit_value c); [apply IH | reflexivity].
Qed.

Lemma reads_app a b x y :
  reads a x -> reads b y -> reads (a ++ b) (x * pow10 (length b) + y).
Proof.
  intros [Fa Ra] [Fb Rb]. split; [now apply Forall_app|].
  intros k. rewrite number_app, Ra, Rb. f_equal.
  rewrite length_app, pow10_add. lia.
Qed.

Lemma reads_split a b v :
  reads (a ++ b) v ->
  exists x y, reads a x /\ reads b y /\ v = x * pow10 (length b) + y.
Proof.
  intros R. pose proof R as [F _]. apply Forall_app in F as [Fa Fb].
  destruct (reads_exists a Fa) as [x Rx], (reads_exists b Fb) as [y Ry].
  exists x, y. split; [exact Rx | split; [exact Ry|]].
  exact (reads_fun _ _ _ R (reads_app _ _ _ _ Rx Ry)).
Qed.

Lemma digit_value_digit d : d < 10 -> digit_value (BigInt.digit d) = Some d.
Proof.
  intros L. 
  assert (d = 0 \/ d = 1 \/ d = 2 \/ d = 3 \/ d = 4 \/ d = 5 \/ d = 6 \/ d = 7 \/ d = 8 \/ d = 9) as H by lia.
  repeat (destruct H as [->|H]; [reflexivity|]). now subst.
Qed.

Lemma reads_digit d : d < 10 -> reads [BigInt.digit d] d.
Proof.
  intros L. eapply reads_eq.
  - apply reads_cons; [now apply digit_value_digit | apply reads_nil].
  - unfold pow10. simpl. lia.
Qed.

Lemma reads_zeros k : reads (repeat Units.zero k) 0.
Proof.
  induction k as [|k IH]; [apply reads_nil|].
  simpl repeat. eapply reads_eq.
  - apply (reads_cons _ 0); [reflexivity | exact IH].
  - lia.
Qed.

Lemma digits_reads fuel n acc :
  n < pow10 (S fuel) ->
  exists ds, BigInt.digits (S fuel) n acc = (ds ++ acc)%list /\ reads ds n /\ ds <> [].
Proof.
  revert n acc. induction fuel as [|fuel IH]; intros n acc L.
  - exists [BigInt.digit n]. 
    assert (n < 10) as L' by (unfold pow10 in L; simpl in L; lia).
    simpl. destruct (N.ltb_spec n 10); [|lia].
    rewrite N.mod_small by lia. split; [reflexivity | split; [now apply reads_digit | discriminate]].
  - cbn [BigInt.digits]. destruct (N.ltb_spec n 10) as [S|B].
    + exists [BigInt.digit n]. rewrite N.mod_small by lia.
      split; [reflexivity | split; [now apply reads_digit | discriminate]].
    + destruct (IH (n / 10) (BigInt.digit (n mod 10) :: acc)) as (ds & E & R & NE).
      { rewrite pow10_S in L. apply N.Div0.div_lt_upper_bound. lia. }
      exists (ds ++ [BigInt.digit (n mod 10)])%list. split; [|split].
      * rewrite <- app_assoc. exact E.
      * eapply reads_eq.
        -- apply reads_app; [exact R|]. apply reads_digit. apply N.mod_lt. discriminate.
        -- cbn [length]. change (pow10 1) with 10.
           pose proof (N.div_mod n 10). lia.
      * destruct ds; discriminate.
Qed.

Lemma of_N_reads n : reads (BigInt.of_N n) n /\ BigInt.of_N n <> [].
Proof.
  unfold BigInt.of_N.
  destruct (digits_reads (N.to_nat (N.log2 n)) n []) as (ds & E & R & NE).
  - unfold pow10. rewrite Nat2N.inj_succ, N2Nat.id.
    destruct (N.eq_dec n 0) as [->|NZ]; [reflexivity|].
    eapply N.lt_le_trans; [apply N.log2_spec; lia|].
    apply N.pow_le_mono_l. lia.
  - rewrite E, app_nil_r. split; assumption.
Qed.

Lemma is_digit_not_point c : is_digit c -> Ascii.eqb c Units.point = false.
Proof.
  intros [v D]. destruct (Ascii.eqb_spec c Units.point) as [->|]; [discriminate D | reflexivity].
Qed.

Lemma is_digit_not_minus c : is_digit c -> Ascii.eqb c "-" = false.
Proof.
  intros [v D]. destruct (Ascii.eqb_spec c "-") as [->|]; [discriminate D | reflexivity].
Qed.

Lemma pad_repeat k s : Units.pad k s = (repeat Units.zero k ++ s)%list.
Proof. induction k as [|k IH]; simpl; [reflexivity | now rewrite IH]. Qed.

(** [trim] takes zeros off the front of a run of digits that ends at the
    point, and leaves the last digit before the point. *)
Lemma trim_digits d t :
  Forall is_digit d -> d <> [] ->
  exists k d', d = (repeat Units.zero k ++ d')%list /\ d' <> [] /\
    Units.trim (d ++ Units.point :: t) = (d' ++ Units.point :: t)%list.
Proof.
  induction 1 as [|c r Dc Dr IH]; intros NE; [contradiction|].
  cbn [app Units.trim]. destruct (Ascii.eqb_spec c Units.zero) as [->|Nz].
  - destruct Dr as [|c' r' Dc' Dr'].
    + exists 0%nat, [Units.zero]. split; [reflexivity | split; [discriminate | reflexivity]].
    + cbn [app]. rewrite (is_digit_not_point _ Dc').
      destruct IH as (k & d' & E & NE' & T); [discriminate|].
      exists (S k), d'. cbn [repeat app]. rewrite <- E. split; [reflexivity | split; assumption].
  - exists 0%nat, (c :: r). split; [reflexivity | split; [discriminate | reflexivity]].
Qed.

Lemma split_point_digits a b :
  Forall is_digit a -> split_point (a ++ Units.point :: b) = Some (a, b).
Proof.
  induction 1 as [|c r Dc _ IH]; [reflexivity|].
  cbn [app split_point]. change "."%char with Units.point.
  now rewrite (is_digit_not_point _ Dc), IH.
Qed.

Lemma natural_reads ds v : reads ds v -> ds <> [] -> natural ds = Some v.
Proof.
  intros [_ R] NE. destruct ds; [contradiction|]. unfold natural. rewrite R. f_equal; lia.
Qed.

Lemma reads_drop_zeros k ds v : reads (repeat Units.zero k ++ ds) v -> reads ds v.
Proof.
  intros R. destruct (reads_split _ _ _ R) as (x & y & Rx & Ry & ->).
  rewrite (reads_fun _ _ _ Rx (reads_zeros k)). exact Ry.
Qed.

(** The shape of what [formatUnits] prints and what it stands for. *)
Lemma formatUnits_shape v scale :
  scale <> 0%nat ->
  exists whole fraction w f,
    Units.formatUnits v scale =
      ((if (v <? 0)%Z then "-" else "") ++
       string_of_list_ascii (whole ++ Units.point :: fraction))%string /\
    reads whole w /\ whole <> [] /\ reads fraction f /\ fraction <> [] /\
    (length fraction <= scale)%nat /\
    w * pow10 scale + f * pow10 (scale - length fraction) = Z.abs_N v.
Proof.
  intros NZ. unfold Units.formatUnits.
  destruct (Nat.eqb_spec scale 0) as [|_]; [contradiction|].
  destruct (of_N_reads (Z.abs_N v)) as [R0 NE0].
  set (str0 := BigInt.of_N (Z.abs_N v)) in *.
  rewrite pad_repeat.
  set (str1 := (repeat Units.zero (S scale - length str0) ++ str0)%list).
  assert (R1 : reads str1 (Z.abs_N v)).
  { eapply reads_eq; [apply reads_app; [apply reads_zeros | exact R0]|]. lia. }
  assert (L1 : (S scale <= length str1)%nat).
  { unfold str1. rewrite length_app, repeat_length. lia. }
  set (index := (length str1 - scale)%nat).
  rewrite <- (firstn_skipn index str1) in R1.
  destruct (reads_split _ _ _ R1) as (x & y & Rx & Ry & E).
  assert (La : length (firstn index str1) = index) by (rewrite length_firstn; lia).
  assert (Lb : length (skipn index str1) = scale) by (rewrite length_skipn; lia).
  destruct (trim_digits (firstn index str1) (skipn index str1)) as (k & whole & Ea & NEa & Ta).
  { apply Rx. } { intros Z. rewrite Z in La. simpl in La. lia. }
  rewrite Ta.
  assert (Rw : reads whole x) by (apply (reads_drop_zeros k); now rewrite <- Ea).
  rewrite rev_app_distr. cbn [rev]. rewrite <- app_assoc. cbn [app].
  destruct (trim_digits (rev (skipn index str1)) (rev whole)) as (j & d & Eb & NEb & Tb).
  { apply Forall_rev, Ry. }
  { intros Z. apply (f_equal (@length _)) in Z. rewrite length_rev, Lb in Z. simpl in Z. lia. }
  rewrite Tb, rev_app_distr. cbn [rev]. rewrite rev_involutive, <- app_assoc. cbn [app].
  apply (f_equal (@rev _)) in Eb. rewrite rev_involutive, rev_app_distr, rev_repeat in Eb.
  assert (Fd : Forall is_digit (rev d)).
  { destruct Ry as [F _]. rewrite Eb in F. now apply Forall_app in F. }
  destruct (reads_exists _ Fd) as [f Rf].
  exists whole, (rev d), x, f. 
  assert (Lf : (length (rev d) + j = scale)%nat).
  { rewrite <- Lb, Eb, length_app, repeat_length. reflexivity. }
  split; [reflexivity|]. split; [exact Rw|]. split; [exact NEa|]. split; [exact Rf|].
  split; [|split; [lia|]].
  - intros Z. apply NEb. apply (f_equal (@rev _)) in Z. now rewrite rev_involutive in Z.
  - rewrite E, Lb. f_equal.
    rewrite Eb in Ry.
    pose proof (reads_fun _ _ _ Ry (reads_app _ _ _ _ Rf (reads_zeros j))) as ->.
    rewrite repeat_length. replace (scale - length (rev d))%nat with j by lia. lia.
Qed.

Lemma list_of_string_of_list l : list_ascii_of_string (string_of_list_ascii l) = l.
Proof. induction l as [|c l IH]; simpl; [reflexivity | now rewrite IH]. Qed.

Lemma reads_head_not_minus ds v :
  reads ds v -> ds <> [] -> exists c r, ds = c :: r /\ Ascii.eqb c "-" = false.
Proof.
  intros [F _] NE. destruct F as [|c r Dc _]; [contradiction|].
  exists c, r. split; [reflexivity | now apply is_digit_not_minus].
Qed.

Lemma list_of_minus s :
  list_ascii_of_string ("-" ++ s) = ("-"%char :: list_ascii_of_string s)%list.
Proof. reflexivity. Qed.

(** Reading back what [formatUnits] printed gives the amount, to the unit. *)
Lemma minor_units_formatUnits v scale :
  scale <> 0%nat -> minor_units scale (Units.formatUnits v scale) = Some v.
Proof.
  intros NZ.
  destruct (formatUnits_shape v scale NZ) as (whole & fraction & w & f & -> & Rw & NEw & Rf & NEf & Lf & E).
  assert (Mg : magnitude scale (whole ++ Units.point :: fraction) = Some (Z.abs_N v)).
  { unfold magnitude. rewrite split_point_digits by apply Rw.
    rewrite (natural_reads _ _ Rw NEw), (natural_reads _ _ Rf NEf).
    destruct (Nat.leb_spec (length fraction) scale); [|lia]. now rewrite E. }
  unfold minor_units, signed.
  destruct (Z.ltb_spec v 0) as [Neg|Pos].
  - rewrite list_of_minus, list_of_string_of_list.
    cbn [Ascii.eqb Bool.eqb]. rewrite Mg. cbn [option_map]. f_equal. lia.
  - change ("" ++ ?x) with x. rewrite list_of_string_of_list.
    destruct (reads_head_not_minus _ _ Rw NEw) as (c & r & -> & Nm).
    cbn [app]. rewrite Nm. change (c :: (r ++ Units.point :: fraction))%list with ((c :: r) ++ Units.point :: fraction)%list.
    rewrite Mg. cbn [option_map]. f_equal. lia.
Qed.

Lemma integer_toString z : integer (BigInt.toString z) = Some z.
Proof.
  destruct (of_N_reads (Z.abs_N z)) as [R NE].
  unfold integer, signed, BigInt.toString.
  destruct (Z.ltb_spec z 0) as [Neg|Pos].
  - cbn [list_ascii_of_string]. rewrite list_of_string_of_list.
    cbn [Ascii.eqb Bool.eqb]. rewrite (natural_reads _ _ R NE). cbn [option_map]. f_equal. lia.
  - rewrite list_of_string_of_list.
    destruct (reads_head_not_minus _ _ R NE) as (c & r & E & Nm).
    rewrite E, Nm, <- E, (natural_reads _ _ R NE). cbn [option_map]. f_equal. lia.
Qed.

End Amounts.

(* ------------------------------------------------------------------ *)
(** ** Balances *)

Section Balances.

Variable upstream : node.

(** What [getWalletBalance] does for a key found in both tables. *)
Lemma getWalletBalance_run address a s h p nw :
  default_param a (defaultNetwork (this h)) = Str s ->
  fst (getProvider a h) = Ok (Own p) ->
  get (networks (this h)) (toLowerCase s) = Some nw ->
  getWalletBalance upstream address a h =
    let c := Call p (GetBalance address) in
    let r := upstream p Z (GetBalance address) in
    let h1 := after_issue h c in
    let h2 := after_await h1 (now h + latency r) [c] in
    match settles r with
    | Fulfils wei =>
        (Ok {| Balance.address := address;
               Balance.network := read_name nw;
               Balance.balanceWei := BigInt.toString wei;
               Balance.balanceEth := Units.formatEther wei |}, h2)
    | Rejects e => (Throw e, h2)
    | NeverSettles => (Hang, h1)
    end.
Proof.
  intros D G E. apply getProvider_resolved in G.
  unfold getWalletBalance, bind, get_this, lift, call_toLowerCase, ret, throw.
  rewrite G, D. cbn [invoke]. unfold issue, await.
  cbn [outcome due sources now this trace].
  destruct (settles _); try reflexivity.
  cbn [this]. rewrite E. reflexivity.
Qed.

(** Without a key of its own the method does not get that far: [getProvider]
    falls back to the default network for [null] and [''], the profile
    lookup does not, and the method throws once the balance has arrived. *)
Lemma getWalletBalance_blank_key env address a t tr wei :
  a = Null \/ a = Str "" ->
  settles (upstream (polygon_provider env) Z (GetBalance address)) = Fulfils wei ->
  exists m, fst (getWalletBalance upstream address a (boot env t tr)) = Throw (TypeError m).
Proof.
  intros [-> | ->] S; eexists;
    unfold getWalletBalance, bind, get_this, lift, call_toLowerCase, ret, throw;
    cbn [default_param this boot defaultNetwork constructor];
    rewrite (getProvider_default env _ t tr) by auto;
    cbn [invoke]; unfold issue, await; cbn [outcome due sources now this trace];
    rewrite S; reflexivity.
Qed.

(** C7. For a key that resolves to a connection and a profile, and a balance
    the node reports (a 256-bit unsigned amount), [getWalletBalance] returns
    the amount twice: [balanceWei] is its decimal numeral, and [balanceEth]
    is a decimal string that, read back at scale 18, is the same amount to
    the last unit. For 1000000000000000000 the two are that numeral and
    "1.0". *)
Theorem getWalletBalance_exact address a s h p nw wei :
  default_param a (defaultNetwork (this h)) = Str s ->
  fst (getProvider a h) = Ok (Own p) ->
  get (networks (this h)) (toLowerCase s) = Some (Own nw) ->
  settles (upstream p Z (GetBalance address)) = Fulfils wei ->
  (0 <= wei < 2 ^ 256)%Z ->
  exists b,
    fst (getWalletBalance upstream address a h) = Ok b /\
    Balance.address b = address /\
    Balance.network b = Some (name nw) /\
    Reading.integer (Balance.balanceWei b) = Some wei /\
    Reading.minor_units 18 (Balance.balanceEth b) = Some wei /\
    (wei = 1000000000000000000%Z ->
     Balance.balanceWei b = "1000000000000000000" /\ Balance.balanceEth b = "1.0").
Proof.
  intros D G E S _.
  rewrite (getWalletBalance_run address a s h p (Own nw) D G E). cbv zeta. rewrite S.
  eexists. split; [reflexivity|]. cbn [Balance.address Balance.network
    Balance.balanceWei Balance.balanceEth read_name].
  split; [reflexivity|]. split; [reflexivity|].
  split; [apply integer_toString|].
  split; [apply minor_units_formatUnits; discriminate|].
  intros ->. split; reflexivity.
Qed.

End Balances.

Lemma getWalletBalance_exact_witness :
  exists b,
    fst (getWalletBalance test_node "0x03" Undefined (boot no_env 0 [])) = Ok b /\
    Balance.address b = "0x03" /\
    Balance.network b = Some "Polygon Mainnet" /\
    Reading.integer (Balance.balanceWei b) = Some 1000000000000000000%Z /\
    Reading.minor_units 18 (Balance.balanceEth b) = Some 1000000000000000000%Z /\
    (1000000000000000000%Z = 1000000000000000000%Z ->
     Balance.balanceWei b = "1000000000000000000" /\ Balance.balanceEth b = "1.0").
Proof.
  apply (getWalletBalance_exact test_node "0x03" Undefined "polygon" (boot no_env 0 [])
           (polygon_provider no_env) (polygon_profile no_env) 1000000000000000000%Z).
  - reflexivity.
  - reflexivity.
  - reflexivity.
  - reflexivity.
  - split; [intros H; discriminate H | reflexivity].
Defined.

(* ------------------------------------------------------------------ *)
(** ** Further properties: the registry and resolution *)

Lemma getProvider_run a h :
  getProvider (default_param a (defaultNetwork (this h))) h = (fst (getProvider a h), h).
Proof.
  rewrite getProvider_default_param.
  rewrite (surjective_pairing (getProvider a h)) at 1. now rewrite getProvider_heap.
Qed.

Lemma getProvider_Str_any s h :
  s <> "" ->
  getProvider (Str s) h =
  match get (providers (this h)) (toLowerCase s) with
  | None => (Throw (not_supported (Str s)), h)
  | Some p => (Ok p, h)
  end.
Proof.
  intros N. unfold getProvider, bind, get_this.
  cbn [default_param]. rewrite (or_else_Str _ _ N).
  destruct (get _ _); reflexivity.
Qed.

(** X1. Whatever the service holds, two non-empty keys that differ only in
    the casing of their letters resolve to the same connection object, or
    both are refused. *)
Theorem getProvider_case_insensitive s s' h :
  s <> "" -> s' <> "" -> casing_variant s s' ->
  (forall p, fst (getProvider (Str s) h) = Ok p <-> fst (getProvider (Str s') h) = Ok p) /\
  (fst (getProvider (Str s) h) = Throw (not_supported (Str s)) <->
   fst (getProvider (Str s') h) = Throw (not_supported (Str s'))).
Proof.
  intros N N' V. unfold casing_variant in V.
  rewrite !getProvider_Str_any by assumption. rewrite V.
  destruct (get _ _); cbn [fst]; split; try tauto.
  - split; discriminate.
  - intros p. split; discriminate.
Qed.

Lemma getProvider_case_insensitive_witness :
  fst (getProvider (Str "EtHeReUm") (boot no_env 0 [])) = Ok (Own (ethereum_provider no_env)) /\
  fst (getProvider (Str "ethereum") (boot no_env 0 [])) = Ok (Own (ethereum_provider no_env)).
Proof.
  split; [reflexivity|].
  apply (proj1 (getProvider_case_insensitive "EtHeReUm" "ethereum" (boot no_env 0 [])
                  ltac:(discriminate) ltac:(discriminate) eq_refl)).
  reflexivity.
Defined.

Lemma or_else_self d : or_else (default_param (Str d) d) d = d.
Proof. cbn [default_param or_else]. now destruct (String.eqb d ""). Qed.

Lemma or_else_blank a d :
  a = Undefined \/ a = Null \/ a = Str "" -> or_else (default_param a d) d = d.
Proof. intros [-> | [-> | ->]]; [apply or_else_self | reflexivity | reflexivity]. Qed.

(** X2. A missing key means the default network: [undefined], [null] and the
    empty string resolve to exactly what the default key resolves to, on any
    service object. *)
Theorem getProvider_blank_is_default a h p :
  a = Undefined \/ a = Null \/ a = Str "" ->
  fst (getProvider a h) = Ok p <->
  fst (getProvider (Str (defaultNetwork (this h))) h) = Ok p.
Proof.
  intros B. unfold getProvider, bind, get_this, ret, throw.
  rewrite (or_else_blank a _ B), (or_else_self (defaultNetwork (this h))).
  destruct (get _ _); cbn [fst]; split; congruence.
Qed.

Lemma getProvider_blank_is_default_witness :
  fst (getProvider Null (boot no_env 0 [])) = Ok (Own (polygon_provider no_env)).
Proof.
  apply (getProvider_blank_is_default Null (boot no_env 0 []) _ (or_intror (or_introl eq_refl))).
  reflexivity.
Defined.

Lemma getProvider_unsupported_witness :
  getProvider (Str "Solana") (boot no_env 0 []) =
  (Throw (Error "Network Solana not supported"), boot no_env 0 []).
Proof.
  apply (getProvider_unsupported no_env "Solana" 0 []); try discriminate.
  exact (proj1 (bool_decide_eq_false (toLowerCase "Solana" ∈ Object_prototype)) eq_refl).
Defined.

(** X4. The constructor builds the two tables over the same three keys, and
    the connection under a key points at the endpoint of the profile under
    that key; the three connections are three objects, also when the
    environment gives them one URL. *)
Theorem constructor_tables_agree env k :
  (is_Some (providers (constructor env) !! k) <-> is_Some (networks (constructor env) !! k)) /\
  (forall p n, providers (constructor env) !! k = Some p ->
               networks (constructor env) !! k = Some n ->
               endpoint p = rpcUrl n) /\
  (forall k' p p', k <> k' ->
               providers (constructor env) !! k = Some p ->
               providers (constructor env) !! k' = Some p' ->
               p <> p').
Proof.
  unfold constructor; cbn [providers networks].
  split; [|split].
  - destruct (decide (k = "ethereum")) as [->|N1]; [split; eauto|].
    destruct (decide (k = "polygon")) as [->|N2]; [split; eauto|].
    destruct (decide (k = "polygonMumbai")) as [->|N3]; [split; eauto|].
    rewrite !lookup_insert_ne, !lookup_empty by congruence.
    split; intros [? ?]; discriminate.
  - intros p n.
    destruct (decide (k = "ethereum")) as [->|N1];
      [rewrite !lookup_insert_eq; now intros [= <-] [= <-]|].
    destruct (decide (k = "polygon")) as [->|N2];
      [rewrite !(lookup_insert_ne _ "ethereum"), !lookup_insert_eq by congruence;
       now intros [= <-] [= <-]|].
    destruct (decide (k = "polygonMumbai")) as [->|N3];
      [rewrite !(lookup_insert_ne _ "ethereum"), !(lookup_insert_ne _ "polygon"),
         !lookup_insert_eq by congruence; now intros [= <-] [= <-]|].
    rewrite !lookup_insert_ne, !lookup_empty by congruence. discriminate.
  - intros k' p p' NE.
    rewrite !lookup_insert. repeat case_decide; subst;
      rewrite ?lookup_empty; try congruence; try discriminate;
      intros [= <-] [= <-]; discriminate.
Qed.

Lemma constructor_tables_agree_witness :
  polygon_provider (fun _ => Some "http://localhost:8545") <>
  ethereum_provider (fun _ => Some "http://localhost:8545").
Proof.
  apply (proj2 (proj2 (constructor_tables_agree (fun _ => Some "http://localhost:8545")
                         "polygon")) "ethereum"); [discriminate | reflexivity | reflexivity].
Defined.

(** X5. An endpoint comes from the environment when the variable is set to a
    non-empty string, and is the built-in default otherwise, also when the
    variable is set to the empty string. *)
Theorem constructor_endpoint_override env url :
  (env "POLYGON_RPC_URL" = Some url -> url <> "" ->
   endpoint (polygon_provider env) = url /\ rpcUrl (polygon_profile env) = url) /\
  (env "POLYGON_RPC_URL" = None \/ env "POLYGON_RPC_URL" = Some "" ->
   endpoint (polygon_provider env) = "https://polygon-rpc.com") /\
  (env "ETHEREUM_RPC_URL" = Some url -> url <> "" ->
   endpoint (ethereum_provider env) = url) /\
  (env "POLYGON_TESTNET_RPC_URL" = Some url -> url <> "" ->
   endpoint (polygonMumbai_provider env) = url).
Proof.
  unfold polygon_provider, ethereum_provider, polygonMumbai_provider,
    polygon_profile, ethereum_profile, polygonMumbai_profile, env_or.
  cbn [endpoint rpcUrl].
  split; [|split; [|split]].
  - intros H N. rewrite H. now destruct (String.eqb_spec url "").
  - intros [H | H]; now rewrite H.
  - intros H N. rewrite H. now destruct (String.eqb_spec url "").
  - intros H N. rewrite H. now destruct (String.eqb_spec url "").
Qed.

Lemma constructor_endpoint_override_witness :
  endpoint (polygon_provider
              (fun v => if String.eqb v "POLYGON_RPC_URL" then Some "http://node:8545" else None))
  = "http://node:8545".
Proof.
  apply (proj1 (constructor_endpoint_override
                  (fun v => if String.eqb v "POLYGON_RPC_URL" then Some "http://node:8545" else None)
                  "http://node:8545")); [reflexivity | discriminate].
Defined.

(* ------------------------------------------------------------------ *)
(** ** Further properties: status and reads *)

Section Reads.

Variable upstream : node.

Lemma getBlockNumber_run a s h p :
  default_param a (defaultNetwork (this h)) = Str s ->
  fst (getProvider a h) = Ok (Own p) ->
  getBlockNumber upstream a h =
    let c := Call p GetBlockNumber in
    let r := upstream p Z GetBlockNumber in
    let h1 := after_issue h c in
    let h2 := after_await h1 (now h + latency r) [c] in
    match settles r with
    | Fulfils bn =>
        (Ok {| Block.network := get (networks (this h)) (toLowerCase s);
               Block.blockNumber := bn |}, h2)
    | Rejects e => (Throw e, h2)
    | NeverSettles => (Hang, h1)
    end.
Proof.
  intros D G. unfold getBlockNumber, bind, get_this, lift, call_toLowerCase, ret, throw.
  rewrite getProvider_run, G, D. cbn [invoke]. unfold issue, await.
  cbn [outcome due sources now this trace].
  destruct (settles _); reflexivity.
Qed.

Lemma getTransactionDetails_run txHash a h p :
  fst (getProvider a h) = Ok (Own p) ->
  getTransactionDetails upstream txHash a h =
    let c := Call p (GetTransaction txHash) in
    let r := upstream p (option TransactionRequest) (GetTransaction txHash) in
    let h1 := after_issue h c in
    let h2 := after_await h1 (now h + latency r) [c] in
    match settles r with
    | Fulfils tx => (Ok tx, h2)
    | Rejects e => (Throw e, h2)
    | NeverSettles => (Hang, h1)
    end.
Proof.
  intros G. unfold getTransactionDetails, bind, get_this, ret.
  rewrite getProvider_run, G. cbn [invoke]. unfold issue, await.
  cbn [outcome due sources now this trace].
  destruct (settles _); reflexivity.
Qed.

(** X6. For a key found in the profile table whose connection resolves, the
    status check reports what the node says and never throws: a rejection
    becomes an "error" status carrying the node's message, a block number
    becomes an "online" status; it makes exactly one upstream call either
    way. It sets no deadline: where the node never answers, the check never
    returns. *)
Theorem getNetworkStatus_reports s h nw p :
  get (networks (this h)) (toLowerCase s) = Some nw ->
  fst (getProvider (Str s) h) = Ok (Own p) ->
  let reply := upstream p Z GetBlockNumber in
  let run := getNetworkStatus upstream (Str s) h in
  (forall e, settles reply = Rejects e ->
     fst run = Ok {| Status.status := "error"; Status.network := nw;
                     Status.latestBlock := None; Status.error := Some (message e) |}) /\
  (forall bn, settles reply = Fulfils bn ->
     fst run = Ok {| Status.status := "online"; Status.network := nw;
                     Status.latestBlock := Some bn; Status.error := None |}) /\
  (settles reply = NeverSettles -> fst run = Hang) /\
  (settles reply <> NeverSettles ->
     added h (snd run) = [Issued (Call p GetBlockNumber); Resumed [Call p GetBlockNumber]]).
Proof.
  intros E G reply run. subst run reply.
  pose proof (getProvider_run (Str s) h) as R. cbn [default_param] in R. rewrite G in R.
  rewrite (getNetworkStatus_run upstream s h nw p E R). cbv zeta.
  split; [|split; [|split]].
  - now intros e ->.
  - now intros bn ->.
  - now intros ->.
  - unfold added, after_await, after_issue.
    destruct (settles _); [| |congruence]; intros _; cbn [snd trace];
      now rewrite <- app_assoc, skipn_app, skipn_all, Nat.sub_diag.
Qed.

(** X7. A key missing from the profile table is not a status but an
    exception: the check throws the refusal before its [try] block and
    before any upstream call; on [null] it throws a [TypeError]. *)
Theorem getNetworkStatus_throws_on_unknown a s h :
  (default_param a (defaultNetwork (this h)) = Str s ->
   get (networks (this h)) (toLowerCase s) = None ->
   getNetworkStatus upstream a h = (Throw (Error ("Network " ++ s ++ " not supported")), h)) /\
  (exists m, getNetworkStatus upstream Null h = (Throw (TypeError m), h)).
Proof.
  split.
  - intros D E.
    unfold getNetworkStatus, bind, get_this, lift, call_toLowerCase, ret, throw.
    rewrite D, E. reflexivity.
  - eexists. reflexivity.
Qed.

(** X8. [getBlockNumber] and the status check agree on a reachable network:
    where [getBlockNumber] returns a block number, the status is "online"
    with that number and the same profile; where the node rejects,
    [getBlockNumber] throws the node's error while the status check returns
    it as a message. *)
Theorem getBlockNumber_agrees_with_status s h nw p :
  get (networks (this h)) (toLowerCase s) = Some nw ->
  fst (getProvider (Str s) h) = Ok (Own p) ->
  (forall b, fst (getBlockNumber upstream (Str s) h) = Ok b ->
     Block.network b = Some nw /\
     exists st, fst (getNetworkStatus upstream (Str s) h) = Ok st /\
       Status.status st = "online" /\
       Status.latestBlock st = Some (Block.blockNumber b) /\
       Status.network st = nw) /\
  (forall e, fst (getBlockNumber upstream (Str s) h) = Throw e ->
     exists st, fst (getNetworkStatus upstream (Str s) h) = Ok st /\
       Status.status st = "error" /\ Status.error st = Some (message e)).
Proof.
  intros E G.
  pose proof (getProvider_run (Str s) h) as R. cbn [default_param] in R. rewrite G in R.
  rewrite (getNetworkStatus_run upstream s h nw p E R).
  rewrite (getBlockNumber_run (Str s) s h p eq_refl G). cbv zeta. rewrite E.
  destruct (settles _) as [bn|e|]; cbn [fst]; split.
  - intros b [= <-]. cbn. split; [reflexivity|]. eexists. repeat split.
  - discriminate.
  - discriminate.
  - intros e' [= <-]. eexists. repeat split.
  - discriminate.
  - discriminate.
Qed.

(** X10. A transaction the node does not know is not an error:
    [getTransactionDetails] returns [null] for it, and hands back any record
    the node reports as it is. *)
Theorem getTransactionDetails_passes_through txHash a h p tx :
  fst (getProvider a h) = Ok (Own p) ->
  settles (upstream p (option TransactionRequest) (GetTransaction txHash)) = Fulfils tx ->
  fst (getTransactionDetails upstream txHash a h) = Ok tx.
Proof.
  intros G S. rewrite (getTransactionDetails_run txHash a h p G). cbv zeta. now rewrite S.
Qed.

End Reads.

Lemma getNetworkStatus_reports_witness :
  fst (getNetworkStatus down_node (Str "Polygon") (boot no_env 0 [])) =
    Ok {| Status.status := "error"; Status.network := Own (polygon_profile no_env);
          Status.latestBlock := None; Status.error := Some "connection refused" |}.
Proof.
  apply (proj1 (getNetworkStatus_reports down_node "Polygon" (boot no_env 0 [])
                  (Own (polygon_profile no_env)) (polygon_provider no_env)
                  eq_refl eq_refl) (Error "connection refused")).
  reflexivity.
Defined.

Lemma getNetworkStatus_throws_on_unknown_witness :
  getNetworkStatus test_node (Str "Solana") (boot no_env 0 []) =
    (Throw (Error "Network Solana not supported"), boot no_env 0 []).
Proof.
  apply (proj1 (getNetworkStatus_throws_on_unknown test_node (Str "Solana") "Solana"
                  (boot no_env 0 []))); reflexivity.
Defined.

Lemma getBlockNumber_agrees_with_status_witness :
  exists st, fst (getNetworkStatus test_node (Str "polygon") (boot no_env 0 [])) = Ok st /\
    Status.status st = "online" /\ Status.latestBlock st = Some 100%Z.
Proof.
  destruct (proj1 (getBlockNumber_agrees_with_status test_node "polygon" (boot no_env 0 [])
                     (Own (polygon_profile no_env)) (polygon_provider no_env)
                     eq_refl eq_refl)
              {| Block.network := Some (Own (polygon_profile no_env));
                 Block.blockNumber := 100%Z |} eq_refl)
    as (_ & st & E & S & L & _).
  exists st. split; [exact E|]. split; [exact S | exact L].
Defined.

Lemma getTransactionDetails_passes_through_witness :
  fst (getTransactionDetails test_node "0xdead" Undefined (boot no_env 0 [])) = Ok None.
Proof.
  apply (getTransactionDetails_passes_through test_node "0xdead" Undefined
           (boot no_env 0 []) (polygon_provider no_env) None); reflexivity.
Defined.

(* ------------------------------------------------------------------ *)
(** ** Further properties: fees *)

Lemma toString_nonempty z : BigInt.toString z <> "".
Proof.
  intros E. pose proof (integer_toString z) as R. rewrite E in R. discriminate R.
Qed.

Lemma toString_or_null_reads x :
  match toString_or_null x with
  | Some s => exists z, x = Some z /\ Reading.integer s = Some z
  | None => x = None
  end.
Proof.
  destruct x as [z|]; cbn [toString_or_null]; [|reflexivity].
  destruct (String.eqb_spec (BigInt.toString z) "") as [E|_].
  - now apply toString_nonempty in E.
  - exists z. split; [reflexivity | apply integer_toString].
Qed.

Section Fees.

Variable upstream : node.

(** X11. A fee the node leaves unset stays [null] in the estimate and a fee
    it reports, zero included, comes back as its decimal numeral; the gas
    figure is the numeral of the node's estimate. Nothing is defaulted. *)
Theorem estimateGasCost_keeps_fees tx a h p gas feeData :
  fst (getProvider a h) = Ok (Own p) ->
  settles (upstream p Z (EstimateGas tx)) = Fulfils gas ->
  settles (upstream p FeeData GetFeeData) = Fulfils feeData ->
  exists est,
    fst (estimateGasCost upstream tx a h) = Ok est /\
    Reading.integer (GasCost.gas est) = Some gas /\
    (GasCost.maxFeePerGas est = None <-> Ethers.maxFeePerGas feeData = None) /\
    (GasCost.maxPriorityFeePerGas est = None <->
       Ethers.maxPriorityFeePerGas feeData = None) /\
    (forall z, Ethers.maxFeePerGas feeData = Some z ->
       exists str, GasCost.maxFeePerGas est = Some str /\ Reading.integer str = Some z) /\
    (forall z, Ethers.maxPriorityFeePerGas feeData = Some z ->
       exists str, GasCost.maxPriorityFeePerGas est = Some str
                   /\ Reading.integer str = Some z).
Proof.
  intros G S1 S2. rewrite (estimateGasCost_run upstream tx a h p G). cbv zeta.
  rewrite S1, S2. eexists. split; [reflexivity|].
  cbn [GasCost.gas GasCost.maxFeePerGas GasCost.maxPriorityFeePerGas].
  pose proof (toString_or_null_reads (Ethers.maxFeePerGas feeData)) as F.
  pose proof (toString_or_null_reads (Ethers.maxPriorityFeePerGas feeData)) as P.
  split; [apply integer_toString|].
  destruct (toString_or_null (Ethers.maxFeePerGas feeData)) as [sf|];
    [destruct F as (zf & -> & Rf) | rewrite F];
    (destruct (toString_or_null (Ethers.maxPriorityFeePerGas feeData)) as [sp|];
       [destruct P as (zp & -> & Rp) | rewrite P]);
    repeat split; try discriminate; try reflexivity;
    intros z [= <-]; eauto.
Qed.

(** X12. When the estimation is rejected the fee lookup is never made: the
    one call [estimateGasCost] has issued is the estimation. *)
Theorem estimateGasCost_stops_at_rejection tx a h p e :
  fst (getProvider a h) = Ok (Own p) ->
  settles (upstream p Z (EstimateGas tx)) = Rejects e ->
  added h (snd (estimateGasCost upstream tx a h)) =
    [Issued (Call p (EstimateGas tx)); Resumed [Call p (EstimateGas tx)]].
Proof.
  intros G S. rewrite (estimateGasCost_run upstream tx a h p G). cbv zeta. rewrite S.
  unfold added, after_await, after_issue. cbn [snd trace].
  now rewrite <- app_assoc, skipn_app, skipn_all, Nat.sub_diag.
Qed.

Lemma getNetworkInfo_run a s h p :
  default_param a (defaultNetwork (this h)) = Str s ->
  fst (getProvider a h) = Ok (Own p) ->
  getNetworkInfo upstream a h =
    let c1 := Call p GetBlockNumber in
    let c2 := Call p GetFeeData in
    let b := upstream p Z GetBlockNumber in
    let f := upstream p FeeData GetFeeData in
    let h2 := after_issue (after_issue h c1) c2 in
    let all := Promise_all
                 {| due := now h + latency b; outcome := settles b; sources := [c1] |}
                 {| due := now h + latency f; outcome := settles f; sources := [c2] |} in
    let h3 := after_await h2 (due all) (sources all) in
    match outcome all with
    | Fulfils (blockNumber, feeData) =>
        match get (networks (this h)) (toLowerCase s) with
        | None => (Throw (cannot_read "undefined" "name"), h3)
        | Some network =>
            (Ok {| Info.name := read_name network;
                   Info.rpcUrl := read_field rpcUrl network;
                   Info.blockExplorer := read_field blockExplorer network;
                   Info.blockNumber := blockNumber;
                   Info.feeData :=
                     {| Info.gasPrice := toString_or_null (Ethers.gasPrice feeData);
                        Info.maxFeePerGas :=
                          toString_or_null (Ethers.maxFeePerGas feeData);
                        Info.maxPriorityFeePerGas :=
                          toString_or_null (Ethers.maxPriorityFeePerGas feeData) |} |}, h3)
        end
    | Rejects e => (Throw e, h3)
    | NeverSettles => (Hang, h2)
    end.
Proof.
  intros D G. pose proof (getProvider_run a h) as R. rewrite D, G in R.
  unfold getNetworkInfo, bind, get_this, lift, call_toLowerCase, ret, throw.
  rewrite D, R.
  cbn [invoke]. unfold issue, await. cbn [outcome due sources now this trace].
  destruct (outcome (Promise_all _ _)) as [[bn fd]| |]; try reflexivity.
  cbn [this fst snd]. destruct (get _ _); reflexivity.
Qed.

(** X15. [getNetworkInfo] fails as soon as one of its two calls is rejected:
    if the block-number call is rejected and the fee lookup is not rejected
    earlier, the method throws the block-number error at the moment that
    call settles, without waiting for the fee lookup, which has been issued
    all the same. *)
Theorem getNetworkInfo_fails_fast a s h p e :
  default_param a (defaultNetwork (this h)) = Str s ->
  fst (getProvider a h) = Ok (Own p) ->
  settles (upstream p Z GetBlockNumber) = Rejects e ->
  (forall e', settles (upstream p FeeData GetFeeData) = Rejects e' ->
     latency (upstream p Z GetBlockNumber) <= latency (upstream p FeeData GetFeeData)) ->
  let run := getNetworkInfo upstream a h in
  fst run = Throw e /\
  now (snd run) = now h + latency (upstream p Z GetBlockNumber) /\
  added h (snd run) = [Issued (Call p GetBlockNumber); Issued (Call p GetFeeData);
                       Resumed [Call p GetBlockNumber; Call p GetFeeData]].
Proof.
  intros D G S L run. subst run.
  rewrite (getNetworkInfo_run a s h p D G). cbv zeta.
  unfold Promise_all. cbn [outcome due sources]. rewrite S.
  assert (T : forall c1 c2 c3 (base : list event),
             skipn (length base) (((base ++ [c1]) ++ [c2]) ++ [c3])%list = [c1; c2; c3]).
  { intros. now rewrite <- !app_assoc, skipn_app, skipn_all, Nat.sub_diag. }
  destruct (settles (upstream p FeeData GetFeeData)) as [fd|e'|] eqn:F.
  - cbn [outcome due sources fst snd now after_await after_issue].
    split; [reflexivity|]. split; [lia|]. unfold added. cbn [trace app]. now apply T.
  - specialize (L e' eq_refl).
    destruct (Nat.leb_spec (now h + latency (upstream p Z GetBlockNumber))
                           (now h + latency (upstream p FeeData GetFeeData))); [|lia].
    cbn [outcome due sources fst snd now after_await after_issue].
    split; [reflexivity|]. split; [lia|]. unfold added. cbn [trace app]. now apply T.
  - cbn [outcome due sources fst snd now after_await after_issue].
    split; [reflexivity|]. split; [lia|]. unfold added. cbn [trace app]. now apply T.
Qed.

End Fees.

Lemma estimateGasCost_keeps_fees_witness :
  exists est,
    fst (estimateGasCost test_node (transfer 1) Undefined (boot no_env 0 [])) = Ok est /\
    GasCost.gas est = "21000" /\
    GasCost.maxFeePerGas est = Some "40" /\
    GasCost.maxPriorityFeePerGas est = None.
Proof.
  destruct (estimateGasCost_keeps_fees test_node (transfer 1) Undefined (boot no_env 0 [])
              (polygon_provider no_env) 21000%Z test_fees eq_refl eq_refl eq_refl)
    as (est & E & _).
  exists est. split; [exact E|].
  injection E as <-. repeat split.
Defined.

Lemma estimateGasCost_stops_at_rejection_witness :
  added (boot no_env 0 [])
    (snd (estimateGasCost test_node (transfer (-1)) Undefined (boot no_env 0 []))) =
  [Issued (Call (polygon_provider no_env) (EstimateGas (transfer (-1))));
   Resumed [Call (polygon_provider no_env) (EstimateGas (transfer (-1)))]].
Proof.
  apply (estimateGasCost_stops_at_rejection test_node (transfer (-1)) Undefined
           (boot no_env 0 []) (polygon_provider no_env)
           (Error "execution reverted: negative value")); reflexivity.
Defined.

Lemma estimateGasCost_sequential_witness :
  now (snd (estimateGasCost test_node (transfer 1) (Str "ETHEREUM") (boot no_env 10 []))) =
  10 + 3 + 5.
Proof.
  apply (estimateGasCost_sequential test_node (transfer 1) (Str "ETHEREUM")
           (boot no_env 10 []) (ethereum_provider no_env) 21000%Z test_fees);
    reflexivity.
Defined.

Lemma getNetworkInfo_concurrent_witness :
  now (snd (getNetworkInfo test_node (Str "ETHEREUM") (boot no_env 10 []))) =
  10 + Nat.max 3 5.
Proof.
  apply (getNetworkInfo_concurrent test_node "ETHEREUM" (boot no_env 10 [])
           (ethereum_provider no_env) (Own (ethereum_profile no_env)) 100%Z test_fees);
    reflexivity.
Defined.

Lemma getNetworkInfo_fails_fast_witness :
  fst (getNetworkInfo flaky_node Undefined (boot no_env 0 [])) = Throw (Error "timeout") /\
  now (snd (getNetworkInfo flaky_node Undefined (boot no_env 0 []))) = 0 + 2.
Proof.
  destruct (getNetworkInfo_fails_fast flaky_node Undefined "polygon" (boot no_env 0 [])
              (polygon_provider no_env) (Error "timeout") eq_refl eq_refl eq_refl)
    as (E & T & _).
  - intros e' H. discriminate H.
  - split; [exact E | exact T].
Defined.

(* ------------------------------------------------------------------ *)
(** ** Further properties: failures and their order *)

Lemma drop_two (base : list event) x y :
  skipn (length base) ((base ++ [x]) ++ [y])%list = [x; y].
Proof. now rewrite <- !app_assoc, skipn_app, skipn_all, Nat.sub_diag. Qed.

Lemma drop_three (base : list event) x y z :
  skipn (length base) (((base ++ [x]) ++ [y]) ++ [z])%list = [x; y; z].
Proof. now rewrite <- !app_assoc, skipn_app, skipn_all, Nat.sub_diag. Qed.

Lemma drop_four (base : list event) x y z w :
  skipn (length base) ((((base ++ [x]) ++ [y]) ++ [z]) ++ [w])%list = [x; y; z; w].
Proof. now rewrite <- !app_assoc, skipn_app, skipn_all, Nat.sub_diag. Qed.

Section Failures.

Variable upstream : node.
Variable wallet_check : string -> option error.
Variable contract_check : string -> string -> option error.

(** X9. Apart from the status check, the reads hand an upstream rejection to
    the caller as the node gave it: [getBlockNumber], [getWalletBalance] and
    [getTransactionDetails] throw the very error their call was rejected
    with. *)
Theorem reads_propagate_rejection address txHash a s h p :
  default_param a (defaultNetwork (this h)) = Str s ->
  fst (getProvider a h) = Ok (Own p) ->
  (forall e, settles (upstream p Z GetBlockNumber) = Rejects e ->
     fst (getBlockNumber upstream a h) = Throw e) /\
  (forall e, settles (upstream p Z (GetBalance address)) = Rejects e ->
     fst (getWalletBalance upstream address a h) = Throw e) /\
  (forall e, settles (upstream p (option TransactionRequest) (GetTransaction txHash))
             = Rejects e ->
     fst (getTransactionDetails upstream txHash a h) = Throw e).
Proof.
  intros D G. split; [|split]; intros e S.
  - rewrite (getBlockNumber_run upstream a s h p D G). cbv zeta. now rewrite S.
  - pose proof (getProvider_run a h) as R. rewrite G in R.
    unfold getWalletBalance, bind, get_this, ret.
    rewrite R. cbn [invoke]. unfold issue, await.
    cbn [outcome due sources now this trace]. now rewrite S.
  - rewrite (getTransactionDetails_run upstream txHash a h p G). cbv zeta. now rewrite S.
Qed.

(** X16. A key that [getProvider] refuses stops every operation that needs a
    connection before anything else happens: each throws that same refusal,
    no call goes upstream, no time passes, and neither the signing key nor
    the contract description is looked at. *)
Theorem refusal_comes_first address txHash tx key abi a h refusal :
  fst (getProvider a h) = Throw refusal ->
  getBlockNumber upstream a h = (Throw refusal, h) /\
  getWalletBalance upstream address a h = (Throw refusal, h) /\
  getTransactionDetails upstream txHash a h = (Throw refusal, h) /\
  estimateGasCost upstream tx a h = (Throw refusal, h) /\
  createWallet wallet_check key a h = (Throw refusal, h) /\
  createContract contract_check address abi a h = (Throw refusal, h) /\
  sendTransaction upstream wallet_check tx key a h = (Throw refusal, h) /\
  (a <> Null -> getNetworkInfo upstream a h = (Throw refusal, h)).
Proof.
  intros G. pose proof (getProvider_run a h) as R. rewrite G in R.
  repeat split.
  - unfold getBlockNumber, bind, get_this. now rewrite R.
  - unfold getWalletBalance, bind, get_this. now rewrite R.
  - unfold getTransactionDetails, bind, get_this. now rewrite R.
  - unfold estimateGasCost, bind, get_this. now rewrite R.
  - unfold createWallet, bind, get_this. now rewrite R.
  - unfold createContract, bind, get_this. now rewrite R.
  - unfold sendTransaction, bind, get_this.
    rewrite createWallet_run, getProvider_default_param, G. reflexivity.
  - intros NN. unfold getNetworkInfo, bind, get_this, lift, call_toLowerCase, ret.
    destruct a as [| |s]; [|contradiction|]; cbn [default_param] in *; now rewrite R.
Qed.


(** X18. A submission the node rejects yields no handle: [sendTransaction]
    throws the node's error, and the confirmation call is never issued. *)
Theorem sendTransaction_rejected tx key a h p e :
  fst (getProvider a h) = Ok (Own p) ->
  wallet_check key = None ->
  settles (upstream p string (SendTransaction key tx)) = Rejects e ->
  fst (sendTransaction upstream wallet_check tx key a h) = Throw e /\
  added h (snd (sendTransaction upstream wallet_check tx key a h)) =
    [Issued (Call p (SendTransaction key tx)); Resumed [Call p (SendTransaction key tx)]].
Proof.
  intros G K S.
  unfold sendTransaction, bind, get_this, ret.
  rewrite createWallet_run, getProvider_default_param, G, K.
  unfold Wallet_sendTransaction. cbn [provider signingKey invoke].
  unfold issue, await. cbn [outcome due sources now this trace]. rewrite S.
  split; [reflexivity|]. unfold added. cbn [snd trace].
  now rewrite <- app_assoc, skipn_app, skipn_all, Nat.sub_diag.
Qed.

(** X19. After an accepted submission, the handle's [wait] asks the same
    connection for the confirmation of the returned hash and gives back the
    receipt the node reports; it asks again each time it is run. *)
Theorem wait_confirms_on_same_connection tx key a h p txHash receipt :
  fst (getProvider a h) = Ok (Own p) ->
  wallet_check key = None ->
  settles (upstream p string (SendTransaction key tx)) = Fulfils txHash ->
  settles (upstream p TransactionReceipt (Wait txHash)) = Fulfils receipt ->
  exists handle h1,
    sendTransaction upstream wallet_check tx key a h = (Ok handle, h1) /\
    fst (wait handle h1) = Ok receipt /\
    added h1 (snd (wait handle h1)) =
      [Issued (Call p (Wait txHash)); Resumed [Call p (Wait txHash)]] /\
    fst (wait handle (snd (wait handle h1))) = Ok receipt /\
    added h1 (snd (wait handle (snd (wait handle h1)))) =
      [Issued (Call p (Wait txHash)); Resumed [Call p (Wait txHash)];
       Issued (Call p (Wait txHash)); Resumed [Call p (Wait txHash)]].
Proof.
  intros G K S W.
  unfold sendTransaction, bind, get_this, ret.
  rewrite createWallet_run, getProvider_default_param, G, K.
  unfold Wallet_sendTransaction. cbn [provider signingKey invoke].
  unfold issue, await. cbn [outcome due sources now this trace]. rewrite S.
  do 2 eexists. split; [reflexivity|].
  cbn [wait Response_wait invoke]. unfold bind, issue, await.
  cbn [outcome due sources now this trace fst snd]. rewrite W.
  cbn [outcome due sources now this trace fst snd].
  unfold added. cbn [fst snd trace].
  repeat split.
  - apply drop_two.
  - apply drop_four.
Qed.

End Failures.

Lemma reads_propagate_rejection_witness :
  fst (getBlockNumber down_node (Str "Ethereum") (boot no_env 0 [])) =
    Throw (Error "connection refused").
Proof.
  apply (proj1 (reads_propagate_rejection down_node "0x03" "0xdead" (Str "Ethereum")
                  "Ethereum" (boot no_env 0 []) (ethereum_provider no_env)
                  eq_refl eq_refl)).
  reflexivity.
Defined.

Lemma refusal_comes_first_witness :
  sendTransaction test_node strict_key (transfer 1) "" (Str "Solana") (boot no_env 0 []) =
    (Throw (Error "Network Solana not supported"), boot no_env 0 []).
Proof.
  apply (refusal_comes_first test_node strict_key strict_abi "0x03" "0xdead" (transfer 1)
           "" "" (Str "Solana") (boot no_env 0 []) (Error "Network Solana not supported")).
  reflexivity.
Defined.


Lemma sendTransaction_rejected_witness :
  fst (sendTransaction down_node any_key (transfer 1) "0xkey" Undefined (boot no_env 0 [])) =
    Throw (Error "connection refused").
Proof.
  apply (sendTransaction_rejected down_node any_key (transfer 1) "0xkey" Undefined
           (boot no_env 0 []) (polygon_provider no_env) (Error "connection refused"));
    reflexivity.
Defined.

Lemma wait_confirms_on_same_connection_witness :
  exists handle h1,
    sendTransaction flaky_node any_key (transfer 1) "0xkey" Undefined (boot no_env 0 []) =
      (Ok handle, h1) /\
    fst (wait handle h1) =
      Ok {| Ethers.blockNumber := 101%Z; Ethers.succeeded := true |}.
Proof.
  destruct (wait_confirms_on_same_connection flaky_node any_key (transfer 1) "0xkey"
              Undefined (boot no_env 0 []) (polygon_provider no_env) "0xabc"
              {| Ethers.blockNumber := 101%Z; Ethers.succeeded := true |}
              eq_refl eq_refl eq_refl eq_refl) as (handle & h1 & E & W & _).
  exists handle, h1. split; [exact E | exact W].
Defined.

(* ------------------------------------------------------------------ *)
(** ** Further properties: the registry is never written *)

Lemma keeps_try_catch {A} (m : M A) (handler : error -> M A) :
  keeps_this m -> (forall e, keeps_this (handler e)) -> keeps_this (try_catch m handler).
Proof.
  intros Hm Hh h. unfold try_catch. specialize (Hm h).
  destruct (m h) as [[a|e|] h1]; cbn [snd] in *; try exact Hm.
  now rewrite Hh.
Qed.

Lemma keeps_lift {A} (r : error + A) : keeps_this (lift r).
Proof. destruct r; intros h; reflexivity. Qed.

Create HintDb frame.

#[local] Hint Resolve keeps_ret keeps_throw keeps_get_this keeps_issue keeps_await
  keeps_invoke keeps_getProvider keeps_createWallet keeps_lift : frame.

Ltac frame :=
  repeat first
    [ solve [auto with frame]
    | apply keeps_bind; [|intros ?]
    | apply keeps_try_catch; [|intros ?]
    | match goal with |- keeps_this (match ?x with _ => _ end) => destruct x end ].

(** X20. No method writes to the service object: after any of them, the
    profile table, the connection table and the default key are what they
    were, whatever the arguments and whatever the node answers. The same
    holds for running the confirmation wait of a handle. *)
Theorem service_object_is_read_only
    (upstream : node) (wallet_check : string -> option error)
    (contract_check : string -> string -> option error)
    (x y z : string) (tx : TransactionRequest) (d a : arg) :
  keeps_this (getNetworkStatus upstream a) /\
  keeps_this (getBlockNumber upstream a) /\
  keeps_this (getWalletBalance upstream x a) /\
  keeps_this (getTransactionDetails upstream x a) /\
  keeps_this (estimateGasCost upstream tx a) /\
  keeps_this (createContract contract_check x y a) /\
  keeps_this (getNetworkInfo upstream a) /\
  keeps_this (mintCropNFT (A := unit) x y a) /\
  keeps_this (getNFTDetails (A := unit) x a) /\
  keeps_this (transferNFT (A := unit) x y z a) /\
  keeps_this (createBlockchainPayment (A := unit) x y z d a) /\
  keeps_this (releaseBlockchainPayment (A := unit) x a) /\
  (forall h handle, fst (sendTransaction upstream wallet_check tx x a h) = Ok handle ->
     keeps_this (wait handle)).
Proof.
  repeat match goal with |- _ /\ _ => split end;
    try (unfold getNetworkStatus, getBlockNumber, getWalletBalance, getTransactionDetails,
           estimateGasCost, createContract, getNetworkInfo, mintCropNFT, getNFTDetails,
           transferNFT, createBlockchainPayment, releaseBlockchainPayment; frame).
  intros h handle. unfold sendTransaction, bind, get_this, ret.
  rewrite createWallet_run, getProvider_default_param.
  destruct (fst (getProvider a h)); try discriminate.
  destruct (wallet_check x); try discriminate.
  unfold Wallet_sendTransaction. cbn [provider signingKey].
  destruct (invoke _ _ _ _ _) as [[pr|e|] h1]; try discriminate.
  destruct (await pr h1) as [[txr|e|] h2]; try discriminate.
  intros [= <-]. cbn [wait]. unfold Response_wait. frame.
Qed.

(* ------------------------------------------------------------------ *)
(** ** Further properties: what comes back on the exported service *)

Section Exported.

Variable upstream : node.
Variable env : string -> option string.

(** X21. The empty key is not handled the same way everywhere on the
    exported service. [getProvider] takes it for the default network, so
    the reads go to the polygon node; but the profile lookup finds nothing
    under it: [getBlockNumber] then returns the block number with an
    undefined profile, [getNetworkInfo] throws a [TypeError] after both of
    its calls have been made, and [getNetworkStatus] refuses it outright. *)
Theorem empty_key_is_handled_unevenly t tr bn feeData :
  settles (upstream (polygon_provider env) Z GetBlockNumber) = Fulfils bn ->
  settles (upstream (polygon_provider env) FeeData GetFeeData) = Fulfils feeData ->
  let h := boot env t tr in
  let p := polygon_provider env in
  fst (getBlockNumber upstream (Str "") h) =
    Ok {| Block.network := None; Block.blockNumber := bn |} /\
  (exists m, fst (getNetworkInfo upstream (Str "") h) = Throw (TypeError m)) /\
  added h (snd (getNetworkInfo upstream (Str "") h)) =
    [Issued (Call p GetBlockNumber); Issued (Call p GetFeeData);
     Resumed [Call p GetBlockNumber; Call p GetFeeData]] /\
  getNetworkStatus upstream (Str "") h = (Throw (Error "Network  not supported"), h).
Proof.
  intros B F h p. subst h p.
  assert (G : fst (getProvider (Str "") (boot env t tr)) = Ok (Own (polygon_provider env)))
    by reflexivity.
  assert (E : get (networks (this (boot env t tr))) (toLowerCase "") = None)
    by reflexivity.
  split; [|split; [|split]].
  - rewrite (getBlockNumber_run upstream (Str "") "" _ _ eq_refl G). cbv zeta.
    now rewrite B.
  - rewrite (getNetworkInfo_run upstream (Str "") "" _ _ eq_refl G). cbv zeta.
    unfold Promise_all. cbn [outcome due sources]. rewrite B, F.
    eexists. reflexivity.
  - rewrite (getNetworkInfo_run upstream (Str "") "" _ _ eq_refl G). cbv zeta.
    unfold Promise_all. cbn [outcome due sources]. rewrite B, F.
    cbn [outcome]. rewrite E.
    unfold added, after_await, after_issue. cbn [snd trace sources app boot].
    apply drop_three.
  - reflexivity.
Qed.

(** X22. On the two reachable networks, under any casing of the key,
    [getNetworkInfo] describes the connection it asked: the name and the
    explorer are those of the profile, the reported [rpcUrl] is the endpoint
    the two calls went to, the block number is the node's, and each fee is
    the numeral of what the node reported or [null] where it reported
    none. *)
Theorem getNetworkInfo_describes_its_connection s bn feeData :
  forall t tr profile connection,
  (casing_variant s "polygon" /\
     profile = polygon_profile env /\ connection = polygon_provider env) \/
  (casing_variant s "ethereum" /\
     profile = ethereum_profile env /\ connection = ethereum_provider env) ->
  settles (upstream connection Z GetBlockNumber) = Fulfils bn ->
  settles (upstream connection FeeData GetFeeData) = Fulfils feeData ->
  exists info,
    fst (getNetworkInfo upstream (Str s) (boot env t tr)) = Ok info /\
    Info.name info = Some (name profile) /\
    Info.blockExplorer info = Some (blockExplorer profile) /\
    Info.rpcUrl info = Some (endpoint connection) /\
    Info.blockNumber info = bn /\
    Info.gasPrice (Info.feeData info) = option_map BigInt.toString (Ethers.gasPrice feeData) /\
    Info.maxFeePerGas (Info.feeData info) =
      option_map BigInt.toString (Ethers.maxFeePerGas feeData) /\
    Info.maxPriorityFeePerGas (Info.feeData info) =
      option_map BigInt.toString (Ethers.maxPriorityFeePerGas feeData).
Proof.
  intros t tr profile connection V B F.
  assert (N : forall x, toString_or_null x = option_map BigInt.toString x).
  { intros [z|]; cbn [toString_or_null option_map]; [|reflexivity].
    destruct (String.eqb_spec (BigInt.toString z) "") as [E|_]; [|reflexivity].
    now apply toString_nonempty in E. }
  assert (G : fst (getProvider (Str s) (boot env t tr)) = Ok (Own connection)).
  { destruct V as [(V & _ & ->) | (V & _ & ->)];
      [rewrite (getProvider_polygon env s t tr V) | rewrite (getProvider_ethereum env s t tr V)];
      reflexivity. }
  assert (E : get (networks (this (boot env t tr))) (toLowerCase s) = Some (Own profile)).
  { destruct V as [(V & -> & _) | (V & -> & _)]; unfold casing_variant in V;
      rewrite V; reflexivity. }
  rewrite (getNetworkInfo_run upstream (Str s) s _ _ eq_refl G). cbv zeta.
  unfold Promise_all. cbn [outcome due sources]. rewrite B, F.
  cbn [outcome]. rewrite E. eexists. split; [reflexivity|].
  cbn [Info.name Info.blockExplorer Info.rpcUrl Info.blockNumber Info.feeData
       Info.gasPrice Info.maxFeePerGas Info.maxPriorityFeePerGas read_name read_field].
  rewrite !N.
  destruct V as [(_ & -> & ->) | (_ & -> & ->)]; repeat split.
Qed.

End Exported.

Lemma empty_key_is_handled_unevenly_witness :
  fst (getBlockNumber test_node (Str "") (boot no_env 0 [])) =
    Ok {| Block.network := None; Block.blockNumber := 100%Z |}.
Proof.
  apply (empty_key_is_handled_unevenly test_node no_env 0 [] 100%Z test_fees eq_refl eq_refl).
Defined.

Lemma getNetworkInfo_describes_its_connection_witness :
  exists info,
    fst (getNetworkInfo test_node (Str "POLYGON") (boot no_env 0 [])) = Ok info /\
    Info.name info = Some "Polygon Mainnet" /\
    Info.rpcUrl info = Some "https://polygon-rpc.com" /\
    Info.maxPriorityFeePerGas (Info.feeData info) = None.
Proof.
  destruct (getNetworkInfo_describes_its_connection test_node no_env "POLYGON" 100%Z test_fees
              0 [] (polygon_profile no_env) (polygon_provider no_env)
              (or_introl (conj eq_refl (conj eq_refl eq_refl))) eq_refl eq_refl)
    as (info & E & Nm & _ & U & _ & _ & _ & P).
  exists info. split; [exact E|]. split; [exact Nm|]. split; [exact U | exact P].
Defined.
